(** * Sales analysis dashboard: filter engine, aggregation pipelines,
      Pareto analyzer and KPI summary of [sales_analysis.py]

    The script is a straight-line pandas program.  Every pandas call it
    makes on the fact table is embedded here as a function on lists of
    rows:

    - a [DataFrame] is the list of its rows, in index order;
    - the dimension columns (STORE_CITY, PRODUCT_NAME, CATEGORY,
      SALESPERSON_NAME) come from LEFT JOINs and are nullable: a cell is
      an [option string], [None] being the SQL NULL;
    - DATA is a date column; [pd.to_datetime] sends a date to the
      timestamp of its midnight, so both the column and the two sidebar
      endpoints are day numbers in [Z] and [to_datetime] is the
      embedding of one into the other;
    - TOTAL_VENDA is a number.  Finite values are rationals ([Q]) and
      their arithmetic is exact: binary rounding of float64 is not part
      of this model.  What float64 does where the rationals stop (a zero
      divisor, a comparison with NaN) is kept, in the type [fval].  A
      theorem that equates sums, or places a quotient, is stated for the
      tables on which float64 adds without rounding
      ([Aggregation.whole_amounts]);
    - QUANTIDADE_VENDIDA is an int64 column: its sum wraps around. *)

From Stdlib Require Import List String Bool Arith ZArith QArith Qabs Lia Lqa.
From Stdlib Require Import Sorting.Sorted Sorting.Permutation.
From Stdlib Require OrderedTypeEx.
Import ListNotations.

(** ** Values of float64 computations *)

Module Float.

(** The result of a float64 operation: a finite number, an infinity
    ([Inf true] is the negative one) or NaN. *)
Inductive fval : Type :=
| Num (q : Q)
| Inf (negative : bool)
| NaN.

(** [a / b] on finite operands, numpy rules: no exception on a zero
    divisor, [0/0] is NaN and [a/0] is an infinity with the sign of
    [a]. *)
Definition fdiv (a b : Q) : fval :=
  if Qeq_bool b 0 then
    if Qeq_bool a 0 then NaN
    else if Qle_bool 0 a then Inf false else Inf true
  else Num (a / b).

(** [x * k] for a finite, positive constant [k]. *)
Definition fscale (x : fval) (k : Q) : fval :=
  match x with
  | Num q => Num (q * k)
  | Inf s => Inf s
  | NaN => NaN
  end.

(** [x <= k] for a finite constant [k]: false on NaN. *)
Definition fle (x : fval) (k : Q) : bool :=
  match x with
  | Num q => Qle_bool q k
  | Inf s => s
  | NaN => false
  end.

Definition is_nan (x : fval) : bool :=
  match x with NaN => true | _ => false end.

(** Order on results, used to say that a column does not decrease.  NaN
    is related to nothing. *)
Definition fle_val (x y : fval) : Prop :=
  match x, y with
  | Num p, Num q => (p <= q)%Q
  | Inf true, (Num _ | Inf _) => True
  | (Num _ | Inf _), Inf false => True
  | _, _ => False
  end.

(** Same number, up to the representation of the fraction. *)
Definition feq (x y : fval) : Prop :=
  match x, y with
  | Num p, Num q => (p == q)%Q
  | Inf s, Inf t => s = t
  | NaN, NaN => True
  | _, _ => False
  end.

End Float.
Import Float.

(** ** The fact table *)

Definition cell := option string.

Record Row : Type := mkRow {
  DATA : Z;
  QUANTIDADE_VENDIDA : Z;
  TOTAL_VENDA : Q;
  STORE_CITY : cell;
  PRODUCT_NAME : cell;
  CATEGORY : cell;
  SALESPERSON_NAME : cell
}.

Definition DataFrame := list Row.

(** Equality of two cells; two NULLs are the same value. *)
Definition cell_eqb (a b : cell) : bool :=
  match a, b with
  | Some x, Some y => String.eqb x y
  | None, None => true
  | _, _ => false
  end.

(** [Series.isin(values)], for one cell. *)
Definition isin (v : cell) (values : list cell) : bool :=
  existsb (cell_eqb v) values.

(** [Series.unique()]: the distinct cells, in order of first appearance. *)
Fixpoint unique (l : list cell) : list cell :=
  match l with
  | [] => []
  | x :: t => x :: filter (fun y => negb (cell_eqb x y)) (unique t)
  end.

(** Python's truth value of a list, as in [if store_filter:]. *)
Definition truthy {A : Type} (l : list A) : bool :=
  match l with [] => false | _ :: _ => true end.

(** [pd.to_datetime] on a date. *)
Definition to_datetime (d : Z) : Z := d.

(** [Series.min()] and [Series.max()] of the DATA column; [None] is NaT,
    the result on an empty column. *)
Fixpoint min_date (df : DataFrame) : option Z :=
  match df with
  | [] => None
  | r :: t => match min_date t with
              | None => Some (DATA r)
              | Some m => Some (Z.min (DATA r) m)
              end
  end.

Fixpoint max_date (df : DataFrame) : option Z :=
  match df with
  | [] => None
  | r :: t => match max_date t with
              | None => Some (DATA r)
              | Some m => Some (Z.max (DATA r) m)
              end
  end.

(** ** Filter engine (lines 115-129) *)

Module FilterEngine.

(** What the sidebar hands over: one multiselect per dimension and the
    tuple of the date input, which holds zero, one or two dates. *)
Record Selection : Type := mkSelection {
  store_filter : list cell;
  product_filter : list cell;
  category_filter : list cell;
  salesperson_filter : list cell;
  date_range : list Z
}.

(** [df[df[col].isin(values)]] *)
Definition select_isin (col : Row -> cell) (values : list cell)
    (df : DataFrame) : DataFrame :=
  filter (fun r => isin (col r) values) df.

(** [df[(df['DATA'] >= lo) & (df['DATA'] <= hi)]] *)
Definition select_between (lo hi : Z) (df : DataFrame) : DataFrame :=
  filter (fun r => (lo <=? DATA r)%Z && (DATA r <=? hi)%Z) df.

Definition df_filtered (df_sales : DataFrame) (s : Selection) : DataFrame :=
  let df := df_sales in
  let df := if truthy (store_filter s)
            then select_isin STORE_CITY (store_filter s) df else df in
  let df := if truthy (product_filter s)
            then select_isin PRODUCT_NAME (product_filter s) df else df in
  let df := if truthy (category_filter s)
            then select_isin CATEGORY (category_filter s) df else df in
  let df := if truthy (salesperson_filter s)
            then select_isin SALESPERSON_NAME (salesperson_filter s) df
            else df in
  let df := if Nat.eqb (List.length (date_range s)) 2
            then select_between (to_datetime (nth 0 (date_range s) 0%Z))
                                (to_datetime (nth 1 (date_range s) 0%Z)) df
            else df in
  df.

(** The contract, in the words of the specification: every dimension
    with a non-empty selection allows the row's value, and a date range
    with both endpoints contains the row's date. *)
Definition allows (values : list cell) (v : cell) : Prop :=
  values <> [] -> In v values.

Definition in_range (range : list Z) (d : Z) : Prop :=
  forall lo hi, range = [lo; hi] -> (lo <= d <= hi)%Z.

Definition satisfies (s : Selection) (r : Row) : Prop :=
  allows (store_filter s) (STORE_CITY r) /\
  allows (product_filter s) (PRODUCT_NAME r) /\
  allows (category_filter s) (CATEGORY r) /\
  allows (salesperson_filter s) (SALESPERSON_NAME r) /\
  in_range (date_range s) (DATA r).

Definition allowsb (values : list cell) (v : cell) : bool :=
  negb (truthy values) || isin v values.

Definition in_rangeb (range : list Z) (d : Z) : bool :=
  match range with
  | [lo; hi] => (lo <=? d)%Z && (d <=? hi)%Z
  | _ => true
  end.

Definition satisfiesb (s : Selection) (r : Row) : bool :=
  allowsb (store_filter s) (STORE_CITY r) &&
  allowsb (product_filter s) (PRODUCT_NAME r) &&
  allowsb (category_filter s) (CATEGORY r) &&
  allowsb (salesperson_filter s) (SALESPERSON_NAME r) &&
  in_rangeb (date_range s) (DATA r).

(** The selection that the sidebar shows before the analyst touches it
    reaches from the first to the last date of the table. *)
Definition spans (df : DataFrame) (range : list Z) : Prop :=
  exists lo hi, range = [lo; hi] /\
    (df <> [] -> min_date df = Some lo /\ max_date df = Some hi).

End FilterEngine.

(** ** Aggregation pipelines (lines 171-172, 198, 269-275, 296-302) *)

Module Aggregation.

(** [Series.sum()]; the empty sum is 0. *)
Fixpoint sum (l : list Q) : Q :=
  match l with
  | [] => 0
  | x :: t => x + sum t
  end.

(** One row of [groupby(col)['TOTAL_VENDA'].sum().reset_index()]: the
    group key, in a nullable column, and the summed amount. *)
Definition AggRow : Type := (cell * Q)%type.

(** [groupby] runs with its defaults, [sort=True] and [dropna=True]: a
    row whose key is NULL belongs to no group, and the groups are the
    distinct keys that remain, in ascending order. *)
Fixpoint dropna (l : list cell) : list string :=
  match l with
  | [] => []
  | Some k :: t => k :: dropna t
  | None :: t => dropna t
  end.

Fixpoint insert_key (k : string) (keys : list string) : list string :=
  match keys with
  | [] => [k]
  | h :: t => if String.leb k h then k :: keys else h :: insert_key k t
  end.

Fixpoint sort_keys (keys : list string) : list string :=
  match keys with
  | [] => []
  | k :: t => insert_key k (sort_keys t)
  end.

Definition group_keys (col : Row -> cell) (df : DataFrame) : list string :=
  sort_keys (dropna (unique (map col df))).

Definition group (col : Row -> cell) (k : string) (df : DataFrame)
    : DataFrame :=
  filter (fun r => cell_eqb (col r) (Some k)) df.

Definition groupby_sum (col : Row -> cell) (df : DataFrame) : list AggRow :=
  map (fun k => (Some k, sum (map TOTAL_VENDA (group col k df))))
      (group_keys col df).

(** [sort_values('TOTAL_VENDA', ascending=False)].  pandas leaves the
    order of rows with equal amounts to the sorting routine; here such
    rows keep the order they had.  The theorems below use only that the
    result is a rearrangement in descending order. *)
Fixpoint insert_desc (x : AggRow) (l : list AggRow) : list AggRow :=
  match l with
  | [] => [x]
  | h :: t =>
      if Qle_bool (snd h) (snd x) then x :: l else h :: insert_desc x t
  end.

Fixpoint sort_values_desc (l : list AggRow) : list AggRow :=
  match l with
  | [] => []
  | x :: t => insert_desc x (sort_values_desc t)
  end.

(** [.head(n)] *)
Definition head (n : nat) (l : list AggRow) : list AggRow := firstn n l.

(** Line 171, before the ranking of line 172 replaces it. *)
Definition product_totals (df : DataFrame) : list AggRow :=
  groupby_sum PRODUCT_NAME df.

Definition product_sales (df : DataFrame) : list AggRow :=
  head 10 (sort_values_desc (product_totals df)).

Definition category_sales (df : DataFrame) : list AggRow :=
  groupby_sum CATEGORY df.

Definition top_salespersons (df : DataFrame) : list AggRow :=
  head 10 (sort_values_desc (groupby_sum SALESPERSON_NAME df)).

Definition top_stores (df : DataFrame) : list AggRow :=
  head 10 (sort_values_desc (groupby_sum STORE_CITY df)).

(** Rows in descending order of amount: equal neighbours allowed. *)
Definition descending (l : list AggRow) : Prop :=
  StronglySorted (fun a b => snd b <= snd a) l.

(** Two tables of group totals with the same keys and equal amounts. *)
Definition same_totals (l l' : list AggRow) : Prop :=
  Forall2 (fun a b => fst a = fst b /\ (snd a == snd b)%Q) l l'.

(** The rows of a table whose cell in [col] is not NULL. *)
Definition notnull (col : Row -> cell) (df : DataFrame) : DataFrame :=
  filter (fun r => match col r with Some _ => true | None => false end) df.

(** Tables on which float64 adds the amounts as [sum] does.  float64
    holds every whole number of magnitude up to 2^53 and adds two of
    them without rounding when their sum is one of them.  When the
    amounts of a table are whole numbers whose magnitudes add up to less
    than 2^53, every partial sum that the script forms of them, in
    whatever order pandas adds, is such a number: the sums of the script
    are the exact sums.  Quotients are rounded even then. *)
Definition whole_amounts (df : DataFrame) : Prop :=
  (forall r, In r df -> exists n : Z, TOTAL_VENDA r == inject_Z n) /\
  sum (map (fun r => Qabs (TOTAL_VENDA r)) df) < inject_Z (2 ^ 53).

(** A whole number of magnitude below 2^53: a value of float64. *)
Definition float64_whole (q : Q) : Prop :=
  exists n : Z, q == inject_Z n /\ (Z.abs n < 2 ^ 53)%Z.

End Aggregation.

(** ** KPI summary (lines 140-143) *)

Module KPI.

Definition total_revenue (df : DataFrame) : Q :=
  Aggregation.sum (map TOTAL_VENDA df).

Definition total_transactions (df : DataFrame) : nat := List.length df.

(** [Series.mean()] is the sum over the count of the column, so it is
    NaN on the empty column, without an exception. *)
Definition avg_ticket (df : DataFrame) : fval :=
  fdiv (Aggregation.sum (map TOTAL_VENDA df))
       (inject_Z (Z.of_nat (List.length df))).

(** QUANTIDADE_VENDIDA is an int64 column: its sum wraps around at
    2^63. *)
Definition wrap_int64 (z : Z) : Z :=
  ((z + 2 ^ 63) mod 2 ^ 64 - 2 ^ 63)%Z.

(** The quantities of a table added up in unbounded integers. *)
Definition exact_quantity (df : DataFrame) : Z :=
  fold_right Z.add 0%Z (map QUANTIDADE_VENDIDA df).

Definition total_quantity (df : DataFrame) : Z :=
  wrap_int64 (exact_quantity df).

End KPI.

(** ** Pareto analyzer (lines 390-400 and 430-431) *)

Module Pareto.

Import Aggregation.

Record ParetoRow : Type := mkParetoRow {
  P_PRODUCT_NAME : cell;
  P_TOTAL_VENDA : Q;
  CUMULATIVE_SALES : Q;
  CUMULATIVE_PERCENTAGE : fval;
  PRODUCT_NUMBER : nat
}.

(** [Series.cumsum()] *)
Fixpoint cumsum_from (acc : Q) (l : list Q) : list Q :=
  match l with
  | [] => []
  | x :: t => (acc + x) :: cumsum_from (acc + x) t
  end.

Definition cumsum (l : list Q) : list Q := cumsum_from 0 l.

(** [cumulative / total * 100], element by element. *)
Definition percentage (total : Q) (cumulative : Q) : fval :=
  fscale (fdiv cumulative total) 100.

Fixpoint assemble (rows : list AggRow) (cum : list Q) (pct : list fval)
    (num : list nat) : list ParetoRow :=
  match rows, cum, pct, num with
  | (name, amount) :: rows', c :: cum', p :: pct', n :: num' =>
      mkParetoRow name amount c p n :: assemble rows' cum' pct' num'
  | _, _, _, _ => []
  end.

Definition pareto_of (ranked : list AggRow) : list ParetoRow :=
  let amounts := map snd ranked in
  let cumulative := cumsum amounts in
  let pct := map (percentage (sum amounts)) cumulative in
  assemble ranked cumulative pct (seq 1 (List.length ranked)).

Definition pareto_products (df : DataFrame) : list ParetoRow :=
  pareto_of (sort_values_desc (groupby_sum PRODUCT_NAME df)).

(** [pareto_products[pareto_products['CUMULATIVE_PERCENTAGE'] <= 80]] *)
Definition products_80 (pareto : list ParetoRow) : list ParetoRow :=
  filter (fun r => fle (CUMULATIVE_PERCENTAGE r) 80) pareto.

(** [len(products_80)/len(pareto_products)*100] of the insight line, on
    Python integers: [None] is the ZeroDivisionError of [/]. *)
Definition insight_share (pareto : list ParetoRow) : option Q :=
  match List.length pareto with
  | O => None
  | S _ =>
      Some (inject_Z (Z.of_nat (List.length (products_80 pareto)))
            / inject_Z (Z.of_nat (List.length pareto)) * 100)
  end.

(** Count-at-80 in the words of the specification: the number of leading
    ranks whose cumulative percentage is at most 80. *)
Fixpoint leading_80 (pareto : list ParetoRow) : list ParetoRow :=
  match pareto with
  | [] => []
  | r :: t =>
      if fle (CUMULATIVE_PERCENTAGE r) 80 then r :: leading_80 t else []
  end.

Definition count_at_80_spec (pareto : list ParetoRow) : nat :=
  List.length (leading_80 pareto).

(** The cumulative percentage does not decrease along the ranks. *)
Fixpoint nondecreasing (l : list fval) : Prop :=
  match l with
  | [] => True
  | x :: t =>
      match t with
      | [] => True
      | y :: _ => fle_val x y /\ nondecreasing t
      end
  end.

End Pareto.

(** ** Sample tables *)

Module Samples.

Definition sale (day : Z) (amount : Q) (city product category seller : cell)
    : Row :=
  mkRow day 1 amount city product category seller.

(** Three products, P1 sold twice: 600, 300 and 100 in all. *)
Definition three_products : DataFrame :=
  [ sale 3 300 (Some "Recife") (Some "P2") (Some "B") (Some "Ana");
    sale 1 400 (Some "Natal") (Some "P1") (Some "A") (Some "Ana");
    sale 7 100 (Some "Recife") (Some "P3") (Some "B") (Some "Rui");
    sale 5 200 (Some "Natal") (Some "P1") (Some "A") (Some "Rui") ]%string.

(** A sale whose product was not found by the LEFT JOIN. *)
Definition orphan : Row := sale 4 5 (Some "Natal"%string) None None None.

Definition with_orphan : DataFrame := orphan :: three_products.

End Samples.

(** Keys in strictly ascending order. *)
Definition ascending (keys : list string) : Prop :=
  StronglySorted (fun a b => String.ltb a b = true) keys.

(** ** Sidebar options (lines 73-98) *)

Module Sidebar.

Import Aggregation.

Definition is_null (v : cell) : bool :=
  match v with None => true | Some _ => false end.

(** Python's [sorted] on the values of a column, which are strings and
    NULLs.  A list of fewer than two values is returned without a
    comparison.  Otherwise every value is compared with another one, and
    [<] on a NULL is a TypeError ([None] here); strings are put in
    ascending order. *)
Definition sorted (values : list cell) : option (list cell) :=
  match values with
  | [] | [_] => Some values
  | _ :: _ :: _ =>
      if existsb is_null values then None
      else Some (map Some (sort_keys (dropna values)))
  end.

(** [options=sorted(df_sales[col].unique())] of a multiselect. *)
Definition options (col : Row -> cell) (df : DataFrame)
    : option (list cell) :=
  sorted (unique (map col df)).

End Sidebar.

(** ** Labels of the monthly chart (lines 334-343) *)

Module Seasonality.

(** [monthly_pattern['MONTH'].map({1: 'Jan', ...})]: a month that is not
    a key of the dictionary gets no name (NaN, [None] here). *)
Definition MONTH_NAME (month : Z) : option string :=
  match month with
  | 1 => Some "Jan" | 2 => Some "Feb" | 3 => Some "Mar"
  | 4 => Some "Apr" | 5 => Some "May" | 6 => Some "Jun"
  | 7 => Some "Jul" | 8 => Some "Aug" | 9 => Some "Sep"
  | 10 => Some "Oct" | 11 => Some "Nov" | 12 => Some "Dec"
  | _ => None
  end%Z%string.

(** The [labelExpr] of the x axis: a chain of conditionals on
    [datum.value] that ends in ['Dec']. *)
Definition labelExpr (value : Z) : string :=
  (if value =? 1 then "Jan" else if value =? 2 then "Feb"
   else if value =? 3 then "Mar" else if value =? 4 then "Apr"
   else if value =? 5 then "May" else if value =? 6 then "Jun"
   else if value =? 7 then "Jul" else if value =? 8 then "Aug"
   else if value =? 9 then "Sep" else if value =? 10 then "Oct"
   else if value =? 11 then "Nov" else "Dec")%Z%string.

End Seasonality.

(** ** More sample tables *)

Module MoreSamples.

(** Eleven products, A with 110 down to K with 10, one sale each. *)
Definition eleven_products : DataFrame :=
  map (fun p : string * Q =>
         Samples.sale 1 (snd p) (Some "Natal"%string) (Some (fst p))
           (Some "A"%string) (Some "Ana"%string))
      [("A"%string, 110); ("B"%string, 100); ("C"%string, 90);
       ("D"%string, 80); ("E"%string, 70); ("F"%string, 60);
       ("G"%string, 50); ("H"%string, 40); ("I"%string, 30);
       ("J"%string, 20); ("K"%string, 10)].

(** One product with nine tenths of the revenue. *)
Definition dominant : DataFrame :=
  [ Samples.sale 1 900 (Some "Natal") (Some "P1") (Some "A") (Some "Ana");
    Samples.sale 2 100 (Some "Natal") (Some "P2") (Some "A") (Some "Ana")
  ]%string.

(** No product has a category: the column is NULL in every row. *)
Definition uncategorised : DataFrame :=
  [ Samples.sale 1 70 (Some "Natal") (Some "P1") None (Some "Ana");
    Samples.sale 2 30 (Some "Recife") (Some "P2") None (Some "Rui")
  ]%string.

End MoreSamples.

(** * Properties *)

(** ** Cells and membership *)

Lemma cell_eqb_eq (a b : cell) : cell_eqb a b = true <-> a = b.
Proof.
  destruct a as [x|], b as [y|]; simpl; split; intros H;
    try discriminate; try reflexivity.
  - apply String.eqb_eq in H. now subst.
  - injection H as ->. apply String.eqb_refl.
Qed.

Lemma cell_eqb_refl (a : cell) : cell_eqb a a = true.
Proof. now apply cell_eqb_eq. Qed.

Lemma isin_In (v : cell) (values : list cell) :
  isin v values = true <-> In v values.
Proof.
  unfold isin. rewrite existsb_exists. split.
  - intros [x [Hin Heq]]. apply cell_eqb_eq in Heq. now subst.
  - intros Hin. exists v. split; [assumption | apply cell_eqb_refl].
Qed.

Lemma In_unique (v : cell) (l : list cell) : In v l -> In v (unique l).
Proof.
  induction l as [|x t IH]; simpl; [tauto|].
  intros [-> | Hin]; [now left|].
  destruct (cell_eqb x v) eqn:E.
  - apply cell_eqb_eq in E. now left.
  - right. apply filter_In. split; [auto | now rewrite E].
Qed.

(** ** Filter engine *)

Section FilterFacts.

Import FilterEngine.

Lemma filter_fuse (A : Type) (f g : A -> bool) (l : list A) :
  filter g (filter f l) = filter (fun x => f x && g x) l.
Proof.
  induction l as [|x t IH]; simpl; [reflexivity|].
  destruct (f x); simpl; [destruct (g x)|]; now rewrite IH.
Qed.

Lemma filter_all (A : Type) (f : A -> bool) (l : list A) :
  (forall x, In x l -> f x = true) -> filter f l = l.
Proof.
  induction l as [|x t IH]; simpl; intros H; [reflexivity|].
  rewrite (H x (or_introl eq_refl)). f_equal. apply IH. auto.
Qed.

Lemma filter_none (A : Type) (f : A -> bool) (l : list A) :
  (forall x, In x l -> f x = false) -> filter f l = [].
Proof.
  induction l as [|x t IH]; simpl; intros H; [reflexivity|].
  rewrite (H x (or_introl eq_refl)). apply IH. auto.
Qed.

Lemma guarded_select (col : Row -> cell) (values : list cell)
    (df : DataFrame) :
  (if truthy values then select_isin col values df else df)
  = filter (fun r => allowsb values (col r)) df.
Proof.
  unfold allowsb, select_isin. destruct values as [|v vs]; simpl.
  - symmetry. now apply filter_all.
  - reflexivity.
Qed.

Lemma guarded_between (range : list Z) (df : DataFrame) :
  (if Nat.eqb (List.length range) 2
   then select_between (to_datetime (nth 0 range 0%Z))
                       (to_datetime (nth 1 range 0%Z)) df
   else df)
  = filter (fun r => in_rangeb range (DATA r)) df.
Proof.
  unfold select_between, to_datetime.
  destruct range as [|lo [|hi [|x rest]]]; simpl;
    try (symmetry; now apply filter_all).
  reflexivity.
Qed.

Lemma df_filtered_filter (df : DataFrame) (s : Selection) :
  df_filtered df s = filter (satisfiesb s) df.
Proof.
  unfold df_filtered. cbv zeta.
  rewrite guarded_between, !guarded_select, !filter_fuse.
  apply filter_ext. intros r. unfold satisfiesb.
  now rewrite !andb_assoc.
Qed.

Lemma allowsb_allows (values : list cell) (v : cell) :
  allowsb values v = true <-> allows values v.
Proof.
  unfold allowsb, allows. destruct values as [|x xs]; simpl.
  - split; [intros _ H; now elim H | reflexivity].
  - pose proof (isin_In v (x :: xs)) as Hin. unfold isin in Hin.
    simpl in Hin. rewrite Hin.
    split; [auto | intros H; apply H; discriminate].
Qed.

Lemma in_rangeb_in_range (range : list Z) (d : Z) :
  in_rangeb range d = true <-> in_range range d.
Proof.
  unfold in_rangeb, in_range.
  destruct range as [|lo [|hi [|x rest]]];
    try (split; [intros _ a b E; discriminate E | reflexivity]).
  rewrite andb_true_iff, !Z.leb_le. split.
  - intros H a b E. injection E as <- <-. exact H.
  - intros H. now apply H.
Qed.

Lemma satisfiesb_satisfies (s : Selection) (r : Row) :
  satisfiesb s r = true <-> satisfies s r.
Proof.
  unfold satisfiesb, satisfies.
  rewrite !andb_true_iff, !allowsb_allows, in_rangeb_in_range. tauto.
Qed.

(** C3.  The filter engine returns exactly the rows that satisfy all
    active predicates: the filtered table is the original one with the
    rows failing [satisfies] struck out, where a row satisfies a
    selection when each non-empty categorical selection contains its
    value and, if the date range has both endpoints, its date lies
    between them, endpoints included. *)
Theorem df_filtered_exact (df : DataFrame) (s : Selection) :
  exists keep : Row -> bool,
    (forall r, keep r = true <-> satisfies s r) /\
    df_filtered df s = filter keep df /\
    (forall r, In r (df_filtered df s) <-> In r df /\ satisfies s r).
Proof.
  exists (satisfiesb s). split; [apply satisfiesb_satisfies|].
  split; [apply df_filtered_filter|].
  intros r. rewrite df_filtered_filter, filter_In, satisfiesb_satisfies.
  tauto.
Qed.

(** C8.  With no categorical selection and a date range whose start lies
    after its end, the filter engine returns the empty table; being a
    total function it has no error to raise. *)
Theorem df_filtered_inverted_range (df : DataFrame) (start stop : Z) :
  (stop < start)%Z ->
  df_filtered df (mkSelection [] [] [] [] [start; stop]) = [].
Proof.
  intros Hlt. rewrite df_filtered_filter. apply filter_none.
  intros r _. unfold satisfiesb; simpl.
  destruct (Z.leb_spec start (DATA r)); simpl; [|reflexivity].
  apply Z.leb_gt. lia.
Qed.

Lemma min_date_le (df : DataFrame) (lo : Z) (r : Row) :
  min_date df = Some lo -> In r df -> (lo <= DATA r)%Z.
Proof.
  revert lo. induction df as [|x t IH]; simpl; intros lo Hm Hin; [tauto|].
  destruct (min_date t) as [m|] eqn:E.
  - injection Hm as <-. destruct Hin as [-> | Hin]; [lia|].
    specialize (IH m eq_refl Hin). lia.
  - injection Hm as <-. destruct Hin as [-> | Hin]; [lia|].
    destruct t; [destruct Hin|]. simpl in E.
    destruct (min_date t); discriminate.
Qed.

Lemma max_date_ge (df : DataFrame) (hi : Z) (r : Row) :
  max_date df = Some hi -> In r df -> (DATA r <= hi)%Z.
Proof.
  revert hi. induction df as [|x t IH]; simpl; intros hi Hm Hin; [tauto|].
  destruct (max_date t) as [m|] eqn:E.
  - injection Hm as <-. destruct Hin as [-> | Hin]; [lia|].
    specialize (IH m eq_refl Hin). lia.
  - injection Hm as <-. destruct Hin as [-> | Hin]; [lia|].
    destruct t; [destruct Hin|]. simpl in E.
    destruct (max_date t); discriminate.
Qed.

(** A selection that lists every value of its column strikes out no
    row. *)
Lemma allowsb_unique (col : Row -> cell) (df : DataFrame) (r : Row) :
  In r df -> allowsb (unique (map col df)) (col r) = true.
Proof.
  intros Hin. unfold allowsb. apply orb_true_iff. right.
  apply isin_In, In_unique, in_map, Hin.
Qed.

(** C9.  With the date range reaching from the first to the last date of
    the table, the filter engine returns the table as it is (same rows,
    same order) both when every categorical selection is empty and when
    every categorical selection lists all distinct values of its
    column. *)
Theorem df_filtered_identity (df : DataFrame) (range : list Z) :
  spans df range ->
  df_filtered df (mkSelection [] [] [] [] range) = df /\
  df_filtered df (mkSelection (unique (map STORE_CITY df))
                              (unique (map PRODUCT_NAME df))
                              (unique (map CATEGORY df))
                              (unique (map SALESPERSON_NAME df))
                              range) = df.
Proof.
  intros [lo [hi [-> Hspan]]].
  assert (Hdate : forall r, In r df ->
            in_rangeb [lo; hi] (DATA r) = true).
  { intros r Hin. simpl.
    destruct Hspan as [Hlo Hhi]; [intros ->; destruct Hin|].
    pose proof (@min_date_le _ _ _ Hlo Hin).
    pose proof (@max_date_ge _ _ _ Hhi Hin).
    apply andb_true_iff. split; apply Z.leb_le; lia. }
  split; rewrite df_filtered_filter; apply filter_all; intros r Hin;
    unfold satisfiesb; simpl date_range; rewrite (Hdate r Hin).
  - reflexivity.
  - simpl. now rewrite !allowsb_unique.
Qed.

End FilterFacts.

(** ** Aggregation pipelines *)

Section AggregationFacts.

Import Aggregation.

Local Open Scope Q_scope.

Lemma sum_map_ext (A : Type) (f g : A -> Q) (l : list A) :
  (forall x, In x l -> f x == g x) -> sum (map f l) == sum (map g l).
Proof.
  induction l as [|x t IH]; simpl; intros H; [reflexivity|].
  rewrite (H x (or_introl eq_refl)), IH; [reflexivity | auto].
Qed.

Lemma sum_zero (A : Type) (l : list A) : sum (map (fun _ => 0) l) == 0.
Proof. induction l as [|x t IH]; simpl; [reflexivity | rewrite IH; lra]. Qed.

(** *** The keys of the groups *)

Lemma In_dropna (k : string) (l : list cell) :
  In k (dropna l) <-> In (Some k) l.
Proof.
  induction l as [|[x|] t IH]; simpl; [tauto| |].
  - rewrite IH. split; intros [H|H]; auto; left; congruence.
  - rewrite IH. split; [auto | intros [H|H]; [discriminate | auto]].
Qed.

Lemma unique_In (v : cell) (l : list cell) : In v (unique l) -> In v l.
Proof.
  induction l as [|x t IH]; simpl; [tauto|].
  intros [H|H]; [now left|]. apply filter_In in H. tauto.
Qed.

Lemma NoDup_unique (l : list cell) : NoDup (unique l).
Proof.
  induction l as [|x t IH]; simpl; constructor.
  - intros H. apply filter_In in H. destruct H as [_ H].
    now rewrite cell_eqb_refl in H.
  - now apply NoDup_filter.
Qed.

Lemma NoDup_dropna (l : list cell) : NoDup l -> NoDup (dropna l).
Proof.
  induction 1 as [|[x|] t Hx Ht IH]; simpl; try constructor; auto.
  now rewrite In_dropna.
Qed.

Lemma insert_key_perm (k : string) (keys : list string) :
  Permutation (k :: keys) (insert_key k keys).
Proof.
  induction keys as [|h t IH]; simpl; [reflexivity|].
  destruct (String.leb k h); [reflexivity|].
  rewrite perm_swap. now constructor.
Qed.

Lemma sort_keys_perm (keys : list string) :
  Permutation keys (sort_keys keys).
Proof.
  induction keys as [|k t IH]; simpl; [constructor|].
  rewrite <- insert_key_perm. now constructor.
Qed.

Lemma NoDup_group_keys (col : Row -> cell) (df : DataFrame) :
  NoDup (group_keys col df).
Proof.
  unfold group_keys.
  eapply Permutation_NoDup; [apply sort_keys_perm|].
  apply NoDup_dropna, NoDup_unique.
Qed.

Lemma In_group_keys (col : Row -> cell) (df : DataFrame) (k : string) :
  In k (group_keys col df) <-> exists r, In r df /\ col r = Some k.
Proof.
  unfold group_keys. split.
  - intros H. apply (Permutation_in _ (Permutation_sym (sort_keys_perm _)))
      in H.
    apply In_dropna, unique_In, in_map_iff in H.
    destruct H as [r [E Hin]]. eauto.
  - intros [r [Hin E]].
    apply (Permutation_in _ (sort_keys_perm _)).
    apply In_dropna, In_unique. rewrite <- E. now apply in_map.
Qed.

(** *** Group totals add up to the total of the rows that have a key *)

Lemma sum_skip (G : string -> DataFrame) (r : Row) (k0 : string)
    (ks : list string) :
  ~ In k0 ks ->
  sum (map (fun k => sum (map TOTAL_VENDA
                (if String.eqb k0 k then r :: G k else G k))) ks)
  == sum (map (fun k => sum (map TOTAL_VENDA (G k))) ks).
Proof.
  intros Hn. apply sum_map_ext. intros k Hk.
  destruct (String.eqb_spec k0 k); [subst; contradiction | reflexivity].
Qed.

Lemma sum_bump (G : string -> DataFrame) (r : Row) (k0 : string)
    (ks : list string) :
  NoDup ks -> In k0 ks ->
  sum (map (fun k => sum (map TOTAL_VENDA
                (if String.eqb k0 k then r :: G k else G k))) ks)
  == TOTAL_VENDA r + sum (map (fun k => sum (map TOTAL_VENDA (G k))) ks).
Proof.
  induction 1 as [|h t Hh Ht IH]; intros Hin; [destruct Hin|].
  cbn [map sum]. destruct (String.eqb_spec k0 h) as [->|Hne].
  - rewrite sum_skip by assumption. cbn [map sum]. lra.
  - destruct Hin as [E|Hin]; [congruence|].
    rewrite IH by assumption. lra.
Qed.

Lemma sum_groups (col : Row -> cell) (ks : list string) (df : DataFrame) :
  NoDup ks ->
  (forall r k, In r df -> col r = Some k -> In k ks) ->
  sum (map (fun k => sum (map TOTAL_VENDA (group col k df))) ks)
  == sum (map TOTAL_VENDA (notnull col df)).
Proof.
  intros Hnd. induction df as [|r t IH]; intros Hks.
  - simpl. apply sum_zero.
  - assert (IH' := IH (fun r' k Hin => Hks r' k (or_intror Hin))).
    unfold group, notnull in *. cbn [filter].
    destruct (col r) as [k0|] eqn:E; cbn [cell_eqb].
    + cbn [map sum]. rewrite <- IH'.
      apply (sum_bump
               (fun k => filter (fun r0 => cell_eqb (col r0) (Some k)) t)
               r k0 ks Hnd).
      apply (Hks r k0); [now left | assumption].
    + exact IH'.
Qed.

Lemma groupby_sum_total (col : Row -> cell) (df : DataFrame) :
  sum (map snd (groupby_sum col df))
  == sum (map TOTAL_VENDA (notnull col df)).
Proof.
  unfold groupby_sum. rewrite map_map. cbn [snd].
  apply sum_groups; [apply NoDup_group_keys|].
  intros r k Hin E. apply In_group_keys. eauto.
Qed.

Lemma notnull_all (col : Row -> cell) (df : DataFrame) :
  (forall r, In r df -> col r <> None) -> notnull col df = df.
Proof.
  intros H. apply filter_all. intros r Hin.
  specialize (H r Hin). now destruct (col r).
Qed.

(** C5, as amended.  On a table whose amounts float64 adds exactly, the
    by-category totals add up to the revenue of the rows that have a
    category, and the by-product totals to the revenue of the rows that
    have a product name; with no NULL in either column, both add up to
    the KPI total revenue. *)
Theorem group_totals_add_up (df : DataFrame) :
  whole_amounts df ->
  sum (map snd (category_sales df))
    == KPI.total_revenue (notnull CATEGORY df) /\
  sum (map snd (product_totals df))
    == KPI.total_revenue (notnull PRODUCT_NAME df) /\
  ((forall r, In r df -> CATEGORY r <> None /\ PRODUCT_NAME r <> None) ->
   sum (map snd (category_sales df)) == sum (map snd (product_totals df)) /\
   sum (map snd (product_totals df)) == KPI.total_revenue df).
Proof.
  intros _. unfold category_sales, product_totals, KPI.total_revenue.
  split; [apply groupby_sum_total|]. split; [apply groupby_sum_total|].
  intros H. rewrite !groupby_sum_total.
  rewrite (notnull_all CATEGORY df), (notnull_all PRODUCT_NAME df).
  - split; reflexivity.
  - intros r Hin. now apply H.
  - intros r Hin. now apply H.
Qed.

(** C5, as stated, fails on a table with one sale whose product was not
    found: both pipelines are empty and add up to 0, the revenue is 5. *)
Lemma group_totals_miss_orphan :
  sum (map snd (category_sales [Samples.orphan])) == 0 /\
  sum (map snd (product_totals [Samples.orphan])) == 0 /\
  KPI.total_revenue [Samples.orphan] == 5 /\
  ~ sum (map snd (product_totals [Samples.orphan]))
    == KPI.total_revenue [Samples.orphan].
Proof.
  repeat split; try reflexivity. vm_compute. discriminate.
Qed.

End AggregationFacts.

(** ** Ranked pipelines *)

Section RankingFacts.

Import Aggregation.

Local Open Scope Q_scope.

Lemma insert_desc_perm (x : AggRow) (l : list AggRow) :
  Permutation (x :: l) (insert_desc x l).
Proof.
  induction l as [|h t IH]; simpl; [reflexivity|].
  destruct (Qle_bool (snd h) (snd x)); [reflexivity|].
  rewrite perm_swap. now constructor.
Qed.

Lemma sort_values_desc_perm (l : list AggRow) :
  Permutation l (sort_values_desc l).
Proof.
  induction l as [|x t IH]; simpl; [constructor|].
  rewrite <- insert_desc_perm. now constructor.
Qed.

Lemma insert_desc_descending (x : AggRow) (l : list AggRow) :
  descending l -> descending (insert_desc x l).
Proof.
  unfold descending. induction l as [|h t IH]; simpl; intros Hs.
  - repeat constructor.
  - apply StronglySorted_inv in Hs. destruct Hs as [Ht Hh].
    destruct (Qle_bool (snd h) (snd x)) eqn:E.
    + apply Qle_bool_iff in E. constructor; [now constructor|].
      constructor; [assumption|].
      eapply Forall_impl; [|exact Hh]. intros b Hb. cbv beta in *. lra.
    + assert (Hlt : snd x <= snd h).
      { destruct (Qlt_le_dec (snd x) (snd h)) as [H|H]; [lra|].
        apply Qle_bool_iff in H. congruence. }
      constructor; [auto|].
      apply (Permutation_Forall (insert_desc_perm x t)).
      now constructor.
Qed.

Lemma sort_values_desc_descending (l : list AggRow) :
  descending (sort_values_desc l).
Proof.
  induction l as [|x t IH]; simpl.
  - constructor.
  - now apply insert_desc_descending.
Qed.

Lemma Forall_head (P : AggRow -> Prop) (n : nat) (l : list AggRow) :
  Forall P l -> Forall P (head n l).
Proof.
  unfold head. revert n. induction l as [|x t IH]; intros [|n] H; simpl;
    try constructor.
  - now inversion H.
  - apply IH. now inversion H.
Qed.

Lemma head_descending (n : nat) (l : list AggRow) :
  descending l -> descending (head n l).
Proof.
  unfold descending. revert n.
  induction l as [|x t IH]; intros [|n] H; try (simpl; constructor).
  - apply IH. now apply StronglySorted_inv in H.
  - apply StronglySorted_inv in H. now apply Forall_head.
Qed.

Lemma ranked_top10 (l : list AggRow) :
  (List.length (head 10 (sort_values_desc l)) <= 10)%nat /\
  descending (head 10 (sort_values_desc l)).
Proof.
  split.
  - apply firstn_le_length.
  - apply head_descending, sort_values_desc_descending.
Qed.

(** C6.  Each ranked pipeline (by product, by salesperson, by store
    city) returns at most 10 rows, and every row's summed amount is at
    least the summed amount of each row after it. *)
Theorem ranked_pipelines_top10 (df : DataFrame) :
  ((List.length (product_sales df) <= 10)%nat /\
   descending (product_sales df)) /\
  ((List.length (top_salespersons df) <= 10)%nat /\
   descending (top_salespersons df)) /\
  ((List.length (top_stores df) <= 10)%nat /\
   descending (top_stores df)).
Proof.
  unfold product_sales, top_salespersons, top_stores.
  repeat split; apply ranked_top10.
Qed.

End RankingFacts.

(** ** Pareto analyzer *)

Section ParetoFacts.

Import Aggregation Pareto.

Local Open Scope Q_scope.

(** *** The columns of the Pareto table *)

Lemma length_cumsum_from (acc : Q) (l : list Q) :
  List.length (cumsum_from acc l) = List.length l.
Proof.
  revert acc. induction l as [|x t IH]; intros acc; simpl; [|rewrite IH];
    reflexivity.
Qed.

Lemma assemble_percentage (rows : list AggRow) :
  forall (cum : list Q) (pct : list fval) (num : list nat),
    List.length cum = List.length rows ->
    List.length pct = List.length rows ->
    List.length num = List.length rows ->
    map CUMULATIVE_PERCENTAGE (assemble rows cum pct num) = pct.
Proof.
  induction rows as [|[name amount] rows IH];
    intros [|c cum] [|p pct] [|n num] Hc Hp Hn;
    try discriminate; simpl; [reflexivity|].
  f_equal. apply IH; simpl in *; congruence.
Qed.

Lemma pareto_of_percentage (l : list AggRow) :
  map CUMULATIVE_PERCENTAGE (pareto_of l)
  = map (percentage (sum (map snd l))) (cumsum (map snd l)).
Proof.
  unfold pareto_of. apply assemble_percentage.
  - unfold cumsum. now rewrite length_cumsum_from, length_map.
  - unfold cumsum. now rewrite length_map, length_cumsum_from, length_map.
  - apply length_seq.
Qed.

(** *** Sums of amounts that are not negative *)

Lemma sum_nonneg (l : list Q) : Forall (fun x => 0 <= x) l -> 0 <= sum l.
Proof.
  induction 1 as [|x t Hx Ht IH]; simpl; [lra | lra].
Qed.

Lemma sum_pos (l : list Q) :
  Forall (fun x => 0 < x) l -> l <> [] -> 0 < sum l.
Proof.
  intros H Hne. destruct H as [|x t Hx Ht]; [now elim Hne|].
  simpl. assert (0 <= sum t); [|lra].
  apply sum_nonneg. eapply Forall_impl; [|exact Ht].
  intros a Ha. cbv beta in Ha. lra.
Qed.

Lemma cumsum_from_bounds (acc : Q) (l : list Q) :
  Forall (fun x => 0 <= x) l ->
  Forall (fun c => acc <= c /\ c <= acc + sum l) (cumsum_from acc l).
Proof.
  intros H. revert acc.
  induction H as [|x t Hx Ht IH]; intros acc; simpl; constructor.
  - pose proof (sum_nonneg t Ht). lra.
  - eapply Forall_impl; [|apply IH]. intros c Hc. simpl in Hc. lra.
Qed.

(** *** Percentages over a positive and over a zero total *)

Lemma percentage_pos (total c : Q) :
  0 < total -> percentage total c = Num (c / total * 100).
Proof.
  intros Ht. unfold percentage, fdiv.
  destruct (Qeq_bool total 0) eqn:E; [|reflexivity].
  apply Qeq_bool_iff in E. lra.
Qed.

Lemma percentage_zero (total c : Q) :
  total == 0 -> c == 0 -> percentage total c = NaN.
Proof.
  intros Ht Hc. unfold percentage, fdiv.
  apply Qeq_bool_iff in Ht, Hc. now rewrite Ht, Hc.
Qed.

Lemma ratio_mono (total c d : Q) :
  0 < total -> c <= d -> c / total * 100 <= d / total * 100.
Proof.
  intros Ht Hcd. apply Qmult_le_compat_r; [|lra].
  unfold Qdiv. apply Qmult_le_compat_r; [assumption|].
  apply Qlt_le_weak, Qinv_lt_0_compat, Ht.
Qed.

Lemma percentages_nondecreasing (total acc : Q) (l : list Q) :
  0 < total -> Forall (fun x => 0 <= x) l ->
  nondecreasing (map (percentage total) (cumsum_from acc l)).
Proof.
  intros Ht H. revert acc.
  induction H as [|x t Hx Ht' IH]; intros acc; [exact I|].
  specialize (IH (acc + x)). destruct t as [|y t]; [exact I|].
  inversion Ht' as [|? ? Hy _]; subst.
  change (fle_val (percentage total (acc + x))
                  (percentage total (acc + x + y)) /\
          nondecreasing (map (percentage total)
                             (cumsum_from (acc + x) (y :: t)))).
  split; [|exact IH].
  rewrite !percentage_pos by assumption. simpl.
  apply ratio_mono; [assumption | lra].
Qed.

Lemma last_percentage (g : Q -> fval) (acc : Q) (l : list Q) :
  l <> [] ->
  exists c, last (map g (cumsum_from acc l)) NaN = g c /\
            c == acc + sum l.
Proof.
  revert acc. induction l as [|x t IH]; intros acc Hne; [now elim Hne|].
  destruct t as [|y t].
  - exists (acc + x). simpl. split; [reflexivity | lra].
  - destruct (IH (acc + x)) as [c [Hl Hc]]; [discriminate|].
    exists c. split.
    + rewrite <- Hl. reflexivity.
    + rewrite Hc. simpl. lra.
Qed.

(** *** The ranked product totals *)

Lemma ranked_amounts (P : Q -> Prop) (l : list AggRow) :
  (forall key amount, In (key, amount) l -> P amount) ->
  Forall P (map snd (sort_values_desc l)).
Proof.
  intros H. apply Forall_forall. intros a Ha.
  apply in_map_iff in Ha. destruct Ha as [[k v] [E Hin]].
  simpl in E. subst v. apply (H k).
  apply (Permutation_in _ (Permutation_sym (sort_values_desc_perm l))).
  exact Hin.
Qed.

Lemma product_totals_nonempty (df : DataFrame) :
  (exists r, In r df /\ PRODUCT_NAME r <> None) -> product_totals df <> [].
Proof.
  intros [r [Hin Hn]] E.
  destruct (PRODUCT_NAME r) as [k|] eqn:Ek; [|now elim Hn].
  assert (Hk : In k (group_keys PRODUCT_NAME df)).
  { apply In_group_keys. eauto. }
  unfold product_totals, groupby_sum in E.
  apply map_eq_nil in E. rewrite E in Hk. destruct Hk.
Qed.




(** *** The filter at 80 and the leading ranks *)

Lemma fle_mono (x y : fval) (k : Q) :
  fle_val x y -> fle y k = true -> fle x k = true.
Proof.
  destruct x as [p|[|]|], y as [q|[|]|]; simpl; try tauto; try discriminate.
  intros Hpq Hq. apply Qle_bool_iff in Hq. apply Qle_bool_iff. lra.
Qed.

Lemma above_80_onwards (r : ParetoRow) (rows : list ParetoRow) :
  nondecreasing (map CUMULATIVE_PERCENTAGE (r :: rows)) ->
  fle (CUMULATIVE_PERCENTAGE r) 80 = false ->
  products_80 rows = [].
Proof.
  revert r. induction rows as [|r' rows IH]; intros r Hnd Hr;
    [reflexivity|].
  destruct Hnd as [Hle Hnd]. unfold products_80. cbn [filter].
  destruct (fle (CUMULATIVE_PERCENTAGE r') 80) eqn:E.
  - rewrite (fle_mono _ _ _ Hle E) in Hr. discriminate.
  - now apply (IH r').
Qed.

Lemma nondecreasing_tail (x : fval) (l : list fval) :
  nondecreasing (x :: l) -> nondecreasing l.
Proof. destruct l; [intros; exact I | intros [_ H]; exact H]. Qed.

Lemma products_80_leading (rows : list ParetoRow) :
  nondecreasing (map CUMULATIVE_PERCENTAGE rows) ->
  products_80 rows = leading_80 rows.
Proof.
  induction rows as [|r rows IH]; intros Hnd; [reflexivity|].
  unfold products_80. cbn [filter leading_80].
  destruct (fle (CUMULATIVE_PERCENTAGE r) 80) eqn:E.
  - f_equal. apply IH. now apply nondecreasing_tail in Hnd.
  - now apply (above_80_onwards r).
Qed.

Lemma products_80_all_nan (rows : list ParetoRow) :
  Forall (fun p => p = NaN) (map CUMULATIVE_PERCENTAGE rows) ->
  products_80 rows = [] /\ leading_80 rows = [].
Proof.
  destruct rows as [|r rows]; [split; reflexivity|].
  intros H. apply Forall_map in H. split.
  - apply filter_none. intros x Hx.
    rewrite Forall_forall in H. now rewrite (H x Hx).
  - inversion H as [|? ? Hr _]; subst. simpl. now rewrite Hr.
Qed.

Lemma pareto_of_prefix (l : list AggRow) :
  Forall (fun x => 0 <= x) (map snd l) ->
  products_80 (pareto_of l) = leading_80 (pareto_of l).
Proof.
  intros Hall. pose proof (sum_nonneg _ Hall) as Htot.
  destruct (Qlt_le_dec 0 (sum (map snd l))) as [Hpos|Hzero].
  - apply products_80_leading. rewrite pareto_of_percentage.
    now apply percentages_nondecreasing.
  - assert (Hnan : Forall (fun p => p = NaN)
                     (map CUMULATIVE_PERCENTAGE (pareto_of l))).
    { rewrite pareto_of_percentage. apply Forall_map.
      eapply Forall_impl; [|apply (cumsum_from_bounds 0 _ Hall)].
      intros c Hc. cbv beta in Hc. apply percentage_zero; lra. }
    destruct (products_80_all_nan _ Hnan) as [-> ->]. reflexivity.
Qed.

(** C10.  When no product's summed revenue is negative, the rows that
    the filter at 80 selects from the whole Pareto table are the leading
    ranks whose cumulative percentage is at most 80, so the count of the
    former is the number of the latter. *)
Theorem products_80_is_prefix (df : DataFrame) :
  (forall key amount, In (key, amount) (product_totals df) -> 0 <= amount) ->
  products_80 (pareto_products df) = leading_80 (pareto_products df) /\
  products_80 (pareto_products df)
    = firstn (List.length (products_80 (pareto_products df)))
             (pareto_products df) /\
  List.length (products_80 (pareto_products df))
    = count_at_80_spec (pareto_products df).
Proof.
  intros Hpos.
  assert (E : products_80 (pareto_products df)
              = leading_80 (pareto_products df)).
  { apply pareto_of_prefix, ranked_amounts, Hpos. }
  split; [exact E|]. unfold count_at_80_spec. rewrite E.
  split; [|reflexivity].
  generalize (pareto_products df). intros rows.
  induction rows as [|r rows IH]; [reflexivity|]. cbn [leading_80].
  destruct (fle (CUMULATIVE_PERCENTAGE r) 80); [|reflexivity].
  cbn [List.length firstn]. now rewrite <- IH.
Qed.

End ParetoFacts.

(** ** Scenarios *)

Section Scenarios.

Import Aggregation Pareto FilterEngine.

Local Open Scope Q_scope.

Lemma Qle_bool_false (a b : Q) : b < a -> Qle_bool a b = false.
Proof.
  intros H. destruct (Qle_bool a b) eqn:E; [|reflexivity].
  apply Qle_bool_iff in E. lra.
Qed.

Lemma Qle_bool_true (a b : Q) : a <= b -> Qle_bool a b = true.
Proof. apply Qle_bool_iff. Qed.

(** Any table whose product totals are P1 600, P2 300 and P3 100: the
    ranks are P1, P2, P3, the cumulative percentages 60, 90 and 100, and
    the filter at 80 keeps the first row only. *)
Lemma pareto_600_300_100 (df : DataFrame) :
  same_totals (product_totals df)
    [(Some "P1"%string, 600); (Some "P2"%string, 300);
     (Some "P3"%string, 100)] ->
  map P_PRODUCT_NAME (pareto_products df)
    = [Some "P1"%string; Some "P2"%string; Some "P3"%string] /\
  map PRODUCT_NUMBER (pareto_products df) = [1%nat; 2%nat; 3%nat] /\
  Forall2 feq (map CUMULATIVE_PERCENTAGE (pareto_products df))
    [Num 60; Num 90; Num 100] /\
  map PRODUCT_NUMBER (products_80 (pareto_products df)) = [1%nat].
Proof.
  unfold same_totals, pareto_products, product_totals.
  generalize (groupby_sum PRODUCT_NAME df). intros totals H.
  inversion H as [|[k1 q1] ? t1 ? [Hk1 H1] Ht1]; subst; clear H.
  inversion Ht1 as [|[k2 q2] ? t2 ? [Hk2 H2] Ht2]; subst; clear Ht1.
  inversion Ht2 as [|[k3 q3] ? t3 ? [Hk3 H3] Ht3]; subst; clear Ht2.
  inversion Ht3; subst; clear Ht3.
  simpl in Hk1, Hk2, Hk3, H1, H2, H3. subst k1 k2 k3.
  cbn [sort_values_desc insert_desc snd].
  rewrite (Qle_bool_true q3 q2) by lra.
  cbn [insert_desc snd].
  rewrite (Qle_bool_true q2 q1) by lra.
  unfold pareto_of, cumsum.
  cbn [map snd fst sum cumsum_from List.length seq assemble
       P_PRODUCT_NAME PRODUCT_NUMBER CUMULATIVE_PERCENTAGE].
  rewrite !percentage_pos by lra.
  set (total := q1 + (q2 + (q3 + 0))).
  assert (Ht : total == 1000) by (unfold total; lra).
  assert (E1 : (0 + q1) / total * 100 == 60)
    by (rewrite Ht, H1; reflexivity).
  assert (E2 : (0 + q1 + q2) / total * 100 == 90)
    by (rewrite Ht, H1, H2; reflexivity).
  assert (E3 : (0 + q1 + q2 + q3) / total * 100 == 100)
    by (rewrite Ht, H1, H2, H3; reflexivity).
  split; [reflexivity|]. split; [reflexivity|]. split.
  - repeat constructor; assumption.
  - unfold products_80.
    cbn [filter fle CUMULATIVE_PERCENTAGE].
    rewrite (Qle_bool_true _ 80) by (rewrite E1; lra).
    rewrite (Qle_bool_false _ 80) by (rewrite E2; lra).
    rewrite (Qle_bool_false _ 80) by (rewrite E3; lra).
    reflexivity.
Qed.

Lemma three_products_totals :
  same_totals (product_totals Samples.three_products)
    [(Some "P1"%string, 600); (Some "P2"%string, 300);
     (Some "P3"%string, 100)].
Proof. vm_compute. repeat constructor. Qed.

(** C1, on the code.  Four sales of P1 (400 and 200), P2 (300) and P3
    (100): the Pareto table ranks P1, P2, P3 with cumulative percentages
    60, 90 and 100, as the scenario says, but the filter at 80 keeps
    only the row of P1, so the count that the insight line reports is 1,
    not 2. *)
Theorem pareto_three_products_counts_one :
  map P_PRODUCT_NAME (pareto_products Samples.three_products)
    = [Some "P1"%string; Some "P2"%string; Some "P3"%string] /\
  Forall2 feq
    (map CUMULATIVE_PERCENTAGE (pareto_products Samples.three_products))
    [Num 60; Num 90; Num 100] /\
  List.length (products_80 (pareto_products Samples.three_products))
    = 1%nat /\
  List.length (products_80 (pareto_products Samples.three_products))
    <> 2%nat.
Proof.
  destruct (pareto_600_300_100 _ three_products_totals)
    as [Hn [_ [Hp H80]]].
  split; [exact Hn|]. split; [exact Hp|].
  assert (E : List.length
                (products_80 (pareto_products Samples.three_products))
              = 1%nat).
  { rewrite <- (length_map PRODUCT_NUMBER), H80. reflexivity. }
  split; [exact E | rewrite E; discriminate].
Qed.

(** C2, as amended.  On the empty table the revenue is 0, the number of
    transactions is 0, the Pareto table and its filter at 80 are empty
    (the division by the zero total runs over an empty column), and the
    average ticket is NaN: no exception, and no fallback value either. *)
Theorem empty_table_kpis :
  KPI.total_revenue [] = 0 /\
  KPI.total_transactions [] = 0%nat /\
  KPI.avg_ticket [] = NaN /\
  pareto_products [] = [] /\
  products_80 (pareto_products []) = [].
Proof. repeat split. Qed.

(** C2, as stated, fails: the average ticket of the empty table is
    NaN. *)
Lemma avg_ticket_empty_is_nan :
  is_nan (KPI.avg_ticket []) = true /\
  ~ (exists q, KPI.avg_ticket [] = Num q).
Proof. split; [reflexivity | intros [q H]; discriminate H]. Qed.

(** The share printed by the insight line divides by the number of
    Pareto rows, and is not defined when there is none. *)
Remark insight_share_empty : insight_share (pareto_products []) = None.
Proof. reflexivity. Qed.

Remark insight_share_three_products :
  exists q, insight_share (pareto_products Samples.three_products) = Some q
            /\ q == 100 # 3.
Proof. eexists. split; [reflexivity | vm_compute; reflexivity]. Qed.

End Scenarios.

(** ** The theorems on the sample tables *)

Section OnSamples.

Import Aggregation Pareto FilterEngine.

Local Open Scope Q_scope.

Lemma sample_has_keys (r : Row) :
  In r Samples.three_products ->
  CATEGORY r <> None /\ PRODUCT_NAME r <> None.
Proof.
  intros Hin. simpl in Hin.
  repeat (destruct Hin as [<- | Hin]; [split; discriminate|]).
  destruct Hin.
Defined.

Lemma sample_totals_positive (key : cell) (amount : Q) :
  In (key, amount) (product_totals Samples.three_products) -> 0 < amount.
Proof.
  intros Hin. vm_compute in Hin.
  repeat (destruct Hin as [E | Hin];
          [injection E as _ <-; reflexivity|]).
  destruct Hin.
Defined.

Lemma sample_whole_amounts : whole_amounts Samples.three_products.
Proof.
  split; [|reflexivity].
  intros r Hin. simpl in Hin.
  repeat (destruct Hin as [<- | Hin]; [eexists; reflexivity|]).
  destruct Hin.
Defined.

(** An inverted range on the sample table. *)
Lemma df_filtered_inverted_range_sample :
  (2 < 5)%Z /\
  df_filtered Samples.three_products (mkSelection [] [] [] [] [5; 2]%Z)
  = [].
Proof.
  split; [lia|].
  apply (df_filtered_inverted_range Samples.three_products 5 2). lia.
Defined.

(** The sample table runs from day 1 to day 7. *)
Lemma df_filtered_identity_sample :
  spans Samples.three_products [1; 7]%Z /\
  df_filtered Samples.three_products (mkSelection [] [] [] [] [1; 7]%Z)
  = Samples.three_products /\
  df_filtered Samples.three_products
    (mkSelection (unique (map STORE_CITY Samples.three_products))
                 (unique (map PRODUCT_NAME Samples.three_products))
                 (unique (map CATEGORY Samples.three_products))
                 (unique (map SALESPERSON_NAME Samples.three_products))
                 [1; 7]%Z)
  = Samples.three_products.
Proof.
  assert (H : spans Samples.three_products [1; 7]%Z).
  { exists 1%Z, 7%Z. split; [reflexivity|].
    intros _. split; reflexivity. }
  split; [exact H|].
  apply (df_filtered_identity Samples.three_products [1; 7]%Z H).
Defined.

(** On the sample table, which has no NULL, the three totals agree. *)
Lemma group_totals_add_up_sample :
  sum (map snd (category_sales Samples.three_products))
    == sum (map snd (product_totals Samples.three_products)) /\
  sum (map snd (product_totals Samples.three_products))
    == KPI.total_revenue Samples.three_products.
Proof.
  apply (proj2 (proj2 (group_totals_add_up Samples.three_products
                         sample_whole_amounts))).
  exact sample_has_keys.
Defined.


(** The filter at 80 on the sample table keeps a prefix. *)
Lemma products_80_is_prefix_sample :
  products_80 (pareto_products Samples.three_products)
    = leading_80 (pareto_products Samples.three_products) /\
  products_80 (pareto_products Samples.three_products)
    = firstn (List.length
                (products_80 (pareto_products Samples.three_products)))
             (pareto_products Samples.three_products) /\
  List.length (products_80 (pareto_products Samples.three_products))
    = count_at_80_spec (pareto_products Samples.three_products).
Proof.
  apply (products_80_is_prefix Samples.three_products).
  intros key amount Hin. apply Qlt_le_weak.
  exact (sample_totals_positive key amount Hin).
Defined.

End OnSamples.

(** ** More on the filter engine *)

Section FilterComposition.

Import FilterEngine.

Local Open Scope Q_scope.

Lemma filter_swap (A : Type) (f g : A -> bool) (l : list A) :
  filter g (filter f l) = filter f (filter g l).
Proof.
  rewrite !filter_fuse. apply filter_ext. intros x. apply andb_comm.
Qed.

Lemma filter_twice (A : Type) (f : A -> bool) (l : list A) :
  filter f (filter f l) = filter f l.
Proof.
  rewrite filter_fuse. apply filter_ext. intros x. now destruct (f x).
Qed.

(** X1.  Two selections applied one after the other keep the same rows
    in either order, and applying a selection to its own result changes
    nothing. *)
Theorem df_filtered_commutes (df : DataFrame) (s s' : Selection) :
  df_filtered (df_filtered df s) s' = df_filtered (df_filtered df s') s /\
  df_filtered (df_filtered df s) s = df_filtered df s.
Proof.
  rewrite !df_filtered_filter. split; [apply filter_swap | apply filter_twice].
Qed.

Lemma filter_length_le (A : Type) (f : A -> bool) (l : list A) :
  (List.length (filter f l) <= List.length l)%nat.
Proof.
  induction l as [|x t IH]; simpl; [lia|]. destruct (f x); simpl; lia.
Qed.

Lemma filter_revenue_le (f : Row -> bool) (df : DataFrame) :
  (forall r, In r df -> 0 <= TOTAL_VENDA r) ->
  KPI.total_revenue (filter f df) <= KPI.total_revenue df.
Proof.
  unfold KPI.total_revenue.
  induction df as [|x t IH]; intros H; simpl; [lra|].
  assert (Hx := H x (or_introl eq_refl)).
  assert (Ht := IH (fun r Hr => H r (or_intror Hr))).
  destruct (f x); simpl; lra.
Qed.

Lemma filter_quantity_le (f : Row -> bool) (df : DataFrame) :
  (forall r, In r df -> (0 <= QUANTIDADE_VENDIDA r)%Z) ->
  (0 <= KPI.exact_quantity (filter f df) <= KPI.exact_quantity df)%Z.
Proof.
  unfold KPI.exact_quantity.
  induction df as [|x t IH]; intros H; simpl; [lia|].
  assert (Hx := H x (or_introl eq_refl)).
  assert (Ht := IH (fun r Hr => H r (or_intror Hr))).
  destruct (f x); simpl; lia.
Qed.

Lemma wrap_int64_small (z : Z) :
  (0 <= z < 2 ^ 63)%Z -> KPI.wrap_int64 z = z.
Proof.
  intros H. unfold KPI.wrap_int64. rewrite Z.mod_small; lia.
Qed.

(** X2.  On a table without negative amounts or quantities, whose
    amounts float64 adds exactly and whose quantities add up to less
    than 2^63, no selection raises a KPI: the filtered table has at most
    as many transactions, as much revenue and as many units as the whole
    table. *)
Theorem kpis_shrink_under_filter (df : DataFrame) (s : Selection) :
  Aggregation.whole_amounts df ->
  (forall r, In r df ->
     0 <= TOTAL_VENDA r /\ (0 <= QUANTIDADE_VENDIDA r)%Z) ->
  (KPI.exact_quantity df < 2 ^ 63)%Z ->
  (KPI.total_transactions (df_filtered df s)
     <= KPI.total_transactions df)%nat /\
  KPI.total_revenue (df_filtered df s) <= KPI.total_revenue df /\
  (KPI.total_quantity (df_filtered df s) <= KPI.total_quantity df)%Z.
Proof.
  intros _ H Hmax. rewrite df_filtered_filter.
  split; [apply filter_length_le|].
  split; [apply filter_revenue_le; intros r Hr; now apply H|].
  pose proof (filter_quantity_le (satisfiesb s) df
                (fun r Hr => proj2 (H r Hr))) as Hq.
  unfold KPI.total_quantity. rewrite !wrap_int64_small; lia.
Qed.

(** X3.  A date input that does not hold exactly two dates (the analyst
    has picked only the first endpoint) puts no condition on the date:
    the result is that of the same selection with no date at all. *)
Theorem partial_date_range_is_ignored (df : DataFrame)
    (stores products categories sellers : list cell) (range : list Z) :
  List.length range <> 2%nat ->
  df_filtered df (mkSelection stores products categories sellers range)
  = df_filtered df (mkSelection stores products categories sellers []).
Proof.
  intros Hlen. rewrite !df_filtered_filter. apply filter_ext. intros r.
  unfold satisfiesb. simpl. f_equal.
  destruct range as [|lo [|hi [|x rest]]]; try reflexivity.
  now elim Hlen.
Qed.

End FilterComposition.

(** ** Order of the group keys and of the sidebar options *)

Section KeyOrder.

Import Aggregation Sidebar FilterEngine.

Lemma ltb_lt (a b : string) :
  String.ltb a b = true <-> OrderedTypeEx.String_as_OT.lt a b.
Proof.
  rewrite <- OrderedTypeEx.String_as_OT.cmp_lt.
  unfold String.ltb, OrderedTypeEx.String_as_OT.cmp.
  destruct (String.compare a b); split; intros H;
    try reflexivity; discriminate H.
Qed.

Lemma leb_ltb (a b : string) :
  String.leb a b = true <-> a = b \/ String.ltb a b = true.
Proof.
  unfold String.leb, String.ltb.
  destruct (String.compare a b) eqn:E.
  - apply String.compare_eq_iff in E. tauto.
  - tauto.
  - split; [discriminate|]. intros [->|H]; [|discriminate H].
    pose proof (proj2 (OrderedTypeEx.String_as_OT.cmp_eq b b) eq_refl) as R.
    unfold OrderedTypeEx.String_as_OT.cmp in R. congruence.
Qed.

Lemma ltb_trans (a b c : string) :
  String.ltb a b = true -> String.ltb b c = true -> String.ltb a c = true.
Proof.
  rewrite !ltb_lt. apply OrderedTypeEx.String_as_OT.lt_trans.
Qed.

Lemma ltb_irrefl (a : string) : String.ltb a a = false.
Proof.
  destruct (String.ltb a a) eqn:E; [|reflexivity].
  apply ltb_lt in E.
  now elim (OrderedTypeEx.String_as_OT.lt_not_eq _ _ E).
Qed.

Lemma leb_false_ltb (a b : string) :
  String.leb a b = false -> String.ltb b a = true.
Proof.
  unfold String.leb, String.ltb. rewrite (String.compare_antisym b a).
  destruct (String.compare a b); simpl; intros H;
    try discriminate H; reflexivity.
Qed.

Lemma insert_key_ascending (k : string) (keys : list string) :
  ~ In k keys -> ascending keys -> ascending (insert_key k keys).
Proof.
  unfold ascending. induction keys as [|h t IH]; simpl; intros Hk Hs.
  - repeat constructor.
  - apply StronglySorted_inv in Hs. destruct Hs as [Ht Hh].
    destruct (String.leb k h) eqn:E.
    + assert (Hlt : String.ltb k h = true).
      { apply leb_ltb in E. destruct E as [->|E]; [|exact E].
        elim Hk. now left. }
      constructor; [now constructor|].
      constructor; [exact Hlt|].
      eapply Forall_impl; [|exact Hh]. intros b Hb.
      now apply (ltb_trans k h b).
    + constructor; [apply IH; [tauto | exact Ht]|].
      apply (Permutation_Forall (insert_key_perm k t)).
      constructor; [now apply leb_false_ltb | exact Hh].
Qed.

Lemma sort_keys_ascending (keys : list string) :
  NoDup keys -> ascending (sort_keys keys).
Proof.
  induction 1 as [|k t Hk Ht IH]; simpl; [constructor|].
  apply insert_key_ascending; [|exact IH].
  intros H. apply Hk.
  apply (Permutation_in _ (Permutation_sym (sort_keys_perm t)) H).
Qed.

(** X4.  The rows that a groupby returns stand in strictly ascending
    order of their keys, one row for each value that the column takes
    and none for NULL; this is the order of the by-category table. *)
Theorem groupby_keys_ascending (col : Row -> cell) (df : DataFrame) :
  exists keys,
    map fst (groupby_sum col df) = map Some keys /\
    ascending keys /\
    forall k, In k keys <-> exists r, In r df /\ col r = Some k.
Proof.
  exists (group_keys col df). split.
  - unfold groupby_sum. rewrite map_map. reflexivity.
  - split; [|apply In_group_keys].
    apply sort_keys_ascending, NoDup_dropna, NoDup_unique.
Qed.

Lemma groupby_sum_nil (col : Row -> cell) (df : DataFrame) :
  groupby_sum col df = [] <-> forall r, In r df -> col r = None.
Proof.
  split.
  - intros E r Hin. destruct (col r) as [k|] eqn:Ek; [|reflexivity].
    assert (Hk : In k (group_keys col df)) by (apply In_group_keys; eauto).
    unfold groupby_sum in E. apply map_eq_nil in E.
    rewrite E in Hk. destruct Hk.
  - intros H. unfold groupby_sum.
    destruct (group_keys col df) as [|k ks] eqn:E; [reflexivity|].
    assert (Hk : In k (group_keys col df)) by (rewrite E; now left).
    apply In_group_keys in Hk. destruct Hk as [r [Hin Hr]].
    rewrite (H r Hin) in Hr. discriminate.
Qed.

(** X5.  A groupby returns no row at all exactly when every sale has a
    NULL in the column, which includes the empty table. *)
Theorem groupby_empty_iff (col : Row -> cell) (df : DataFrame) :
  groupby_sum col df = [] <-> forall r, In r df -> col r = None.
Proof. apply groupby_sum_nil. Qed.

Lemma groupby_key_in_selection (col : Row -> cell) (values : list cell)
    (df : DataFrame) (key : cell) (amount : Q) :
  (forall r, In r df -> In (col r) values) ->
  In (key, amount) (groupby_sum col df) -> In key values.
Proof.
  intros Hsel Hin. unfold groupby_sum in Hin.
  apply in_map_iff in Hin. destruct Hin as [k [E Hk]].
  injection E as <- _. apply In_group_keys in Hk.
  destruct Hk as [r [Hr <-]]. now apply Hsel.
Qed.

Lemma ranked_In (l : list AggRow) (row : AggRow) :
  In row (head 10 (sort_values_desc l)) -> In row l.
Proof.
  intros H. unfold head in H.
  apply (Permutation_in _ (Permutation_sym (sort_values_desc_perm l))).
  rewrite <- (firstn_skipn 10). apply in_or_app. now left.
Qed.

(** X6.  A dimension with a selection shows only selected values in its
    chart: after filtering, the keys of the by-category table lie in the
    category selection, and those of the product, salesperson and store
    rankings in theirs. *)
Theorem charts_show_selected_values (df : DataFrame) (s : Selection) :
  (category_filter s <> [] ->
   forall key amount,
     In (key, amount) (category_sales (df_filtered df s)) ->
     In key (category_filter s)) /\
  (product_filter s <> [] ->
   forall key amount,
     In (key, amount) (product_sales (df_filtered df s)) ->
     In key (product_filter s)) /\
  (salesperson_filter s <> [] ->
   forall key amount,
     In (key, amount) (top_salespersons (df_filtered df s)) ->
     In key (salesperson_filter s)) /\
  (store_filter s <> [] ->
   forall key amount,
     In (key, amount) (top_stores (df_filtered df s)) ->
     In key (store_filter s)).
Proof.
  assert (Hsat : forall r, In r (df_filtered df s) -> satisfies s r).
  { intros r Hr. rewrite df_filtered_filter in Hr.
    apply filter_In in Hr. now apply satisfiesb_satisfies. }
  unfold category_sales, product_sales, top_salespersons, top_stores,
    product_totals.
  repeat split; intros Hne key amount Hin;
    try apply ranked_In in Hin;
    (eapply groupby_key_in_selection; [|exact Hin]);
    intros r Hr; apply (Hsat r Hr); exact Hne.
Qed.

End KeyOrder.

(** ** Sidebar options *)

Section SidebarFacts.

Import Aggregation Sidebar FilterEngine.

Lemma existsb_is_null (l : list cell) :
  existsb is_null l = true <-> In None l.
Proof.
  rewrite existsb_exists. split.
  - intros [[k|] [Hin Hn]]; [discriminate Hn | exact Hin].
  - intros H. exists None. now split.
Qed.

Lemma dropna_map_Some (keys : list string) : dropna (map Some keys) = keys.
Proof. induction keys as [|k t IH]; simpl; [|rewrite IH]; reflexivity. Qed.

Lemma In_map_Some (v : cell) (keys : list string) :
  In v (map Some keys) <-> exists k, v = Some k /\ In k keys.
Proof.
  rewrite in_map_iff. split; intros [k [H1 H2]]; exists k; auto.
Qed.

Lemma column_values (col : Row -> cell) (df : DataFrame) (v : cell) :
  In v (unique (map col df)) <-> exists r, In r df /\ col r = v.
Proof.
  split.
  - intros H. apply unique_In, in_map_iff in H.
    destruct H as [r [E Hr]]. eauto.
  - intros [r [Hr <-]]. now apply In_unique, in_map.
Qed.

(** X7.  Building the options of a multiselect fails with a TypeError
    exactly when its column holds both a NULL and a name: one sale whose
    dimension row was not found stops the page before any chart. *)
Theorem options_fail_iff_mixed_null (col : Row -> cell) (df : DataFrame) :
  options col df = None <->
  (exists r, In r df /\ col r = None) /\
  (exists r, In r df /\ col r <> None).
Proof.
  unfold options. rewrite <- (column_values col df None).
  pose proof (NoDup_unique (map col df)) as Hnd.
  pose proof (column_values col df) as Hval.
  destruct (unique (map col df)) as [|a [|b t]] eqn:E; cbn [sorted].
  - split; [discriminate | intros [[] _]].
  - split; [discriminate|]. intros [Hn [r [Hr Hne]]].
    destruct Hn as [Ha|[]]. subst a.
    assert (H : In (col r) [None]) by (apply Hval; eauto).
    destruct H as [H|[]]. now elim Hne.
  - destruct (existsb is_null (a :: b :: t)) eqn:En.
    + split; [intros _ | reflexivity].
      apply existsb_is_null in En. split; [exact En|].
      assert (Hab : a <> b).
      { intros ->. inversion Hnd as [|? ? Hx _]. apply Hx. now left. }
      destruct a as [ka|].
      * destruct (proj1 (Hval (Some ka)) (or_introl eq_refl)) as [r [Hr Ea]].
        exists r. split; [exact Hr | congruence].
      * destruct b as [kb|]; [|now elim Hab].
        destruct (proj1 (Hval (Some kb)) (or_intror (or_introl eq_refl)))
          as [r [Hr Eb]].
        exists r. split; [exact Hr | congruence].
    + split; [discriminate|]. intros [Hn _].
      apply existsb_is_null in Hn. congruence.
Qed.

Lemma NoDup_map_Some (keys : list string) :
  NoDup keys -> NoDup (map Some keys).
Proof.
  induction 1 as [|k t Hk Ht IH]; simpl; constructor; [|exact IH].
  rewrite In_map_Some. intros [k' [E Hin]]. injection E as <-. auto.
Qed.

Lemma options_spec (col : Row -> cell) (df : DataFrame)
    (opts : list cell) :
  options col df = Some opts ->
  NoDup opts /\
  (forall v, In v opts <-> exists r, In r df /\ col r = v) /\
  ascending (dropna opts).
Proof.
  unfold options. intros H.
  pose proof (NoDup_unique (map col df)) as Hnd.
  pose proof (column_values col df) as Hval.
  destruct (unique (map col df)) as [|a [|b t]] eqn:E; cbn [sorted] in H.
  - injection H as <-. repeat split; try constructor; apply Hval.
  - injection H as <-. split; [exact Hnd|]. split; [exact Hval|].
    destruct a; simpl; repeat constructor.
  - remember (a :: b :: t) as u eqn:Eu. clear Eu.
    destruct (existsb is_null u) eqn:En; [discriminate|].
    injection H as <-.
    assert (Hno : ~ In None u).
    { intros Hn. apply existsb_is_null in Hn. congruence. }
    assert (Hk : NoDup (dropna u)) by now apply NoDup_dropna.
    split; [|split].
    + apply NoDup_map_Some.
      apply (Permutation_NoDup (sort_keys_perm _) Hk).
    + intros v. rewrite <- Hval, In_map_Some. split.
      * intros [k [-> Hin]]. apply In_dropna.
        apply (Permutation_in _ (Permutation_sym (sort_keys_perm _)) Hin).
      * intros Hin. destruct v as [k|]; [|now elim Hno].
        exists k. split; [reflexivity|].
        apply (Permutation_in _ (sort_keys_perm _)). now apply In_dropna.
    + rewrite dropna_map_Some. now apply sort_keys_ascending.
Qed.

(** X8.  When the options of a multiselect are built, they are the
    values that the column takes, each once, the names in strictly
    ascending order. *)
Theorem options_are_sorted_values (col : Row -> cell) (df : DataFrame)
    (opts : list cell) :
  options col df = Some opts ->
  NoDup opts /\
  (forall v, In v opts <-> exists r, In r df /\ col r = v) /\
  ascending (dropna opts).
Proof. apply options_spec. Qed.

Lemma options_allow (col : Row -> cell) (df : DataFrame)
    (opts : list cell) (r : Row) :
  options col df = Some opts -> In r df -> allowsb opts (col r) = true.
Proof.
  intros H Hr. apply options_spec in H.
  destruct H as [_ [Hval _]]. unfold allowsb.
  apply orb_true_iff. right. apply isin_In, Hval. eauto.
Qed.

(** X9.  Ticking every option of every multiselect filters nothing:
    the result is that of leaving the four multiselects empty, whatever
    the date input holds. *)
Theorem all_options_selected (df : DataFrame)
    (stores products categories sellers : list cell) (range : list Z) :
  options STORE_CITY df = Some stores ->
  options PRODUCT_NAME df = Some products ->
  options CATEGORY df = Some categories ->
  options SALESPERSON_NAME df = Some sellers ->
  df_filtered df (mkSelection stores products categories sellers range)
  = df_filtered df (mkSelection [] [] [] [] range).
Proof.
  intros H1 H2 H3 H4. rewrite !df_filtered_filter.
  apply filter_ext_in. intros r Hr. unfold satisfiesb. simpl.
  now rewrite (options_allow _ _ _ _ H1 Hr), (options_allow _ _ _ _ H2 Hr),
    (options_allow _ _ _ _ H3 Hr), (options_allow _ _ _ _ H4 Hr).
Qed.

End SidebarFacts.

(** ** Sales without a category *)

Section NullCategories.

Import Aggregation Sidebar FilterEngine.

Lemma mixed_column_fails (col : Row -> cell) (df : DataFrame) :
  (exists r, In r df /\ col r = None) ->
  (exists r, In r df /\ col r <> None) ->
  options col df = None.
Proof.
  intros [r0 [Hr0 E0]] [r1 [Hr1 E1]].
  assert (H0 : In None (unique (map col df)))
    by (apply column_values; eauto).
  assert (H1 : In (col r1) (unique (map col df)))
    by (apply column_values; eauto).
  unfold options.
  destruct (unique (map col df)) as [|a [|b t]] eqn:E; cbn [sorted].
  - destruct H0.
  - destruct H0 as [Ha|[]]. subst a.
    destruct H1 as [H1|[]]. now elim E1.
  - apply existsb_is_null in H0. now rewrite H0.
Qed.

Lemma built_options_all_null (col : Row -> cell) (df : DataFrame) :
  options col df <> None ->
  (exists r, In r df /\ col r = None) ->
  forall r, In r df -> col r = None.
Proof.
  intros Hopt Hnull r Hr.
  destruct (col r) as [k|] eqn:E; [|reflexivity].
  elim Hopt. apply mixed_column_fails; [exact Hnull|].
  exists r. split; [exact Hr | congruence].
Qed.

(** C7, as amended.  When the table has sales without a category and the
    category multiselect could be built (the column is then NULL in
    every row), the by-category table of every selection is computed and
    is empty: the sales without a category form no group. *)
Theorem null_category_forms_no_group (df_sales : DataFrame)
    (s : Selection) :
  options CATEGORY df_sales <> None ->
  (exists r, In r df_sales /\ CATEGORY r = None) ->
  category_sales (df_filtered df_sales s) = [] /\
  forall amount,
    ~ In (None, amount) (category_sales (df_filtered df_sales s)).
Proof.
  intros Hopt Hnull.
  assert (E : category_sales (df_filtered df_sales s) = []).
  { apply groupby_sum_nil. intros r Hr.
    apply (built_options_all_null CATEGORY df_sales Hopt Hnull).
    rewrite df_filtered_filter in Hr. apply filter_In in Hr. tauto. }
  split; [exact E|]. intros amount H. rewrite E in H. destruct H.
Qed.

(** C7, as stated, fails on a table that gets past the sidebar: with no
    category in any row all four multiselects are built, and the
    by-category table has no row, hence no group for NULL. *)
Lemma uncategorised_sales_form_no_group :
  options STORE_CITY MoreSamples.uncategorised <> None /\
  options PRODUCT_NAME MoreSamples.uncategorised <> None /\
  options CATEGORY MoreSamples.uncategorised = Some [None] /\
  options SALESPERSON_NAME MoreSamples.uncategorised <> None /\
  (exists r, In r MoreSamples.uncategorised /\ CATEGORY r = None) /\
  category_sales
    (df_filtered MoreSamples.uncategorised (mkSelection [] [] [] [] []))
  = [] /\
  forall amount,
    ~ In (None, amount)
         (category_sales
            (df_filtered MoreSamples.uncategorised
               (mkSelection [] [] [] [] []))).
Proof.
  split; [discriminate|]. split; [discriminate|].
  split; [reflexivity|]. split; [discriminate|].
  split; [eexists; split; [left; reflexivity | reflexivity]|].
  split; [reflexivity | intros amount []].
Qed.

(** The theorem on the table without categories, filtered on Natal. *)
Lemma null_category_forms_no_group_sample :
  category_sales
    (df_filtered MoreSamples.uncategorised
       (mkSelection [Some "Natal"%string] [] [] [] []))
  = [] /\
  forall amount,
    ~ In (None, amount)
         (category_sales
            (df_filtered MoreSamples.uncategorised
               (mkSelection [Some "Natal"%string] [] [] [] []))).
Proof.
  apply (null_category_forms_no_group MoreSamples.uncategorised
           (mkSelection [Some "Natal"%string] [] [] [] [])).
  - discriminate.
  - eexists. split; [left; reflexivity | reflexivity].
Defined.

End NullCategories.

(** ** What the rankings keep and what they leave out *)

Section TopTen.

Import Aggregation.

Local Open Scope Q_scope.

Lemma descending_app (a b : list AggRow) :
  descending (a ++ b) ->
  forall x y, In x a -> In y b -> snd y <= snd x.
Proof.
  unfold descending. induction a as [|h t IH]; simpl; intros Hs x y Hx Hy;
    [destruct Hx|].
  apply StronglySorted_inv in Hs. destruct Hs as [Ht Hh].
  destruct Hx as [<-|Hx]; [|now apply (IH Ht x y)].
  rewrite Forall_forall in Hh. apply Hh, in_or_app. now right.
Qed.

Lemma head_dominates (l : list AggRow) (row : AggRow) :
  In row l ->
  In row (head 10 (sort_values_desc l)) \/
  forall shown, In shown (head 10 (sort_values_desc l)) ->
                snd row <= snd shown.
Proof.
  intros Hin. unfold head.
  apply (Permutation_in _ (sort_values_desc_perm l)) in Hin.
  pose proof (sort_values_desc_descending l) as Hs.
  rewrite <- (firstn_skipn 10 (sort_values_desc l)) in Hin, Hs.
  apply in_app_or in Hin. destruct Hin as [Hin|Hin]; [now left|].
  right. intros shown Hshown. now apply (descending_app _ _ Hs).
Qed.

Lemma groupby_keys_NoDup (col : Row -> cell) (df : DataFrame) :
  NoDup (map fst (groupby_sum col df)).
Proof.
  unfold groupby_sum. rewrite map_map. cbn [fst].
  induction (NoDup_group_keys col df) as [|k t Hk Ht IH]; simpl;
    constructor; [|exact IH].
  intros H. apply in_map_iff in H. destruct H as [k' [E Hin]].
  injection E as <-. auto.
Qed.

Lemma NoDup_firstn (A : Type) (n : nat) (l : list A) :
  NoDup l -> NoDup (firstn n l).
Proof.
  intros H. rewrite <- (firstn_skipn n l) in H.
  now apply NoDup_app_remove_r in H.
Qed.

Lemma head_keeps_all (l : list AggRow) :
  (List.length l <= 10)%nat ->
  Permutation (head 10 (sort_values_desc l)) l.
Proof.
  intros Hlen. unfold head. rewrite firstn_all2.
  - apply Permutation_sym, sort_values_desc_perm.
  - now rewrite <- (Permutation_length (sort_values_desc_perm l)).
Qed.

(** The three rankings with the groupby each one ranks. *)
Lemma ranking_cases (pipeline groups : DataFrame -> list AggRow) :
  In (pipeline, groups)
     [(product_sales, product_totals);
      (top_salespersons, groupby_sum SALESPERSON_NAME);
      (top_stores, groupby_sum STORE_CITY)] ->
  exists col, groups = groupby_sum col /\
    pipeline = fun df => head 10 (sort_values_desc (groupby_sum col df)).
Proof.
  intros [H|[H|[H|[]]]]; injection H as <- <-; eexists;
    split; reflexivity.
Qed.

(** X10.  A ranking leaves out only what is not larger than what it
    shows: every group of the product, salesperson or store totals is
    either a row of its ranking or has an amount at most that of every
    row shown. *)
Theorem ranking_dominates (pipeline groups : DataFrame -> list AggRow)
    (df : DataFrame) (row : AggRow) :
  In (pipeline, groups)
     [(product_sales, product_totals);
      (top_salespersons, groupby_sum SALESPERSON_NAME);
      (top_stores, groupby_sum STORE_CITY)] ->
  In row (groups df) ->
  In row (pipeline df) \/
  forall shown, In shown (pipeline df) -> snd row <= snd shown.
Proof.
  intros Hp Hin. destruct (ranking_cases _ _ Hp) as [col [-> ->]].
  now apply head_dominates.
Qed.

(** X11.  A ranking shows groups of its groupby, no key twice; with at
    most ten groups it shows all of them. *)
Theorem ranking_rows (pipeline groups : DataFrame -> list AggRow)
    (df : DataFrame) :
  In (pipeline, groups)
     [(product_sales, product_totals);
      (top_salespersons, groupby_sum SALESPERSON_NAME);
      (top_stores, groupby_sum STORE_CITY)] ->
  incl (pipeline df) (groups df) /\
  NoDup (map fst (pipeline df)) /\
  ((List.length (groups df) <= 10)%nat ->
   Permutation (pipeline df) (groups df)).
Proof.
  intros Hp. destruct (ranking_cases _ _ Hp) as [col [-> ->]].
  split; [|split].
  - intros row. apply ranked_In.
  - unfold head. rewrite <- firstn_map. apply NoDup_firstn.
    apply (Permutation_NoDup
             (Permutation_map fst (sort_values_desc_perm _))).
    apply groupby_keys_NoDup.
  - apply head_keeps_all.
Qed.

End TopTen.

(** ** More on the Pareto table *)

Section ParetoTable.

Import Aggregation Pareto.

Local Open Scope Q_scope.

Lemma sum_perm (l l' : list Q) : Permutation l l' -> sum l == sum l'.
Proof.
  induction 1 as [|x l l' _ IH|x y l|l l' l'' _ IH1 _ IH2]; simpl.
  - reflexivity.
  - now rewrite IH.
  - lra.
  - now rewrite IH1.
Qed.

Lemma assemble_columns (rows : list AggRow) :
  forall (cum : list Q) (pct : list fval) (num : list nat),
    List.length cum = List.length rows ->
    List.length pct = List.length rows ->
    List.length num = List.length rows ->
    map (fun r => (P_PRODUCT_NAME r, P_TOTAL_VENDA r))
        (assemble rows cum pct num) = rows /\
    map CUMULATIVE_SALES (assemble rows cum pct num) = cum /\
    map PRODUCT_NUMBER (assemble rows cum pct num) = num.
Proof.
  induction rows as [|[name amount] rows IH];
    intros [|c cum] [|p pct] [|n num] Hc Hp Hn;
    try discriminate; simpl; [repeat split|].
  destruct (IH cum pct num) as [H1 [H2 H3]]; simpl in *; try congruence.
  now rewrite H1, H2, H3.
Qed.

Lemma pareto_of_columns (l : list AggRow) :
  map (fun r => (P_PRODUCT_NAME r, P_TOTAL_VENDA r)) (pareto_of l) = l /\
  map CUMULATIVE_SALES (pareto_of l) = cumsum (map snd l) /\
  map PRODUCT_NUMBER (pareto_of l) = seq 1 (List.length l).
Proof.
  unfold pareto_of. apply assemble_columns.
  - unfold cumsum. now rewrite length_cumsum_from, length_map.
  - unfold cumsum. now rewrite length_map, length_cumsum_from, length_map.
  - apply length_seq.
Qed.

Lemma pareto_of_amounts (l : list AggRow) :
  map P_TOTAL_VENDA (pareto_of l) = map snd l.
Proof.
  destruct (pareto_of_columns l) as [H _].
  rewrite <- H at 2. now rewrite map_map.
Qed.

Lemma pareto_of_names (l : list AggRow) :
  map P_PRODUCT_NAME (pareto_of l) = map fst l.
Proof.
  destruct (pareto_of_columns l) as [H _].
  rewrite <- H at 2. now rewrite map_map.
Qed.

Lemma length_pareto_of (l : list AggRow) :
  List.length (pareto_of l) = List.length l.
Proof.
  rewrite <- (length_map P_TOTAL_VENDA), pareto_of_amounts.
  apply length_map.
Qed.

(** X12.  The Pareto table has one row for each product that has sales,
    no product twice; the rows carry the product totals in descending
    order and are numbered 1, 2, ... in that order. *)
Theorem pareto_table_shape (df : DataFrame) :
  Permutation
    (map (fun r => (P_PRODUCT_NAME r, P_TOTAL_VENDA r)) (pareto_products df))
    (product_totals df) /\
  descending
    (map (fun r => (P_PRODUCT_NAME r, P_TOTAL_VENDA r)) (pareto_products df)) /\
  NoDup (map P_PRODUCT_NAME (pareto_products df)) /\
  map PRODUCT_NUMBER (pareto_products df)
    = seq 1 (List.length (product_totals df)).
Proof.
  unfold pareto_products. fold (product_totals df).
  destruct (pareto_of_columns (sort_values_desc (product_totals df)))
    as [H1 [_ H3]].
  rewrite H1, H3, pareto_of_names.
  pose proof (sort_values_desc_perm (product_totals df)) as Hp.
  split; [now apply Permutation_sym|].
  split; [apply sort_values_desc_descending|]. split.
  - apply (Permutation_NoDup (Permutation_map fst Hp)).
    apply groupby_keys_NoDup.
  - now rewrite (Permutation_length Hp).
Qed.

Lemma last_any_default (A : Type) (l : list A) (d d' : A) :
  l <> [] -> last l d = last l d'.
Proof.
  induction l as [|x t IH]; intros Hne; [now elim Hne|].
  destruct t as [|y t]; [reflexivity|].
  change (last (y :: t) d = last (y :: t) d'). apply IH. discriminate.
Qed.

Lemma last_cumsum_from (l : list Q) :
  forall acc, last (cumsum_from acc l) acc == acc + sum l.
Proof.
  induction l as [|x t IH]; intros acc; [simpl; lra|].
  destruct t as [|y t]; [simpl; lra|].
  change (last (cumsum_from (acc + x) (y :: t)) acc
          == acc + (x + sum (y :: t))).
  rewrite (last_any_default _ _ acc (acc + x)) by discriminate.
  rewrite IH. lra.
Qed.

(** X14.  On a table whose amounts float64 adds exactly, the last
    cumulative sales figure of the Pareto table is the revenue of the
    sales that have a product name (0 when there is none). *)
Theorem cumulative_sales_end_at_revenue (df : DataFrame) :
  whole_amounts df ->
  last (map CUMULATIVE_SALES (pareto_products df)) 0
  == KPI.total_revenue (notnull PRODUCT_NAME df).
Proof.
  intros _. unfold pareto_products, KPI.total_revenue.
  destruct (pareto_of_columns
              (sort_values_desc (groupby_sum PRODUCT_NAME df)))
    as [_ [H2 _]].
  rewrite H2. unfold cumsum. rewrite last_cumsum_from.
  rewrite <- groupby_sum_total.
  rewrite <- (sum_perm _ _
                (Permutation_map snd
                   (sort_values_desc_perm (groupby_sum PRODUCT_NAME df)))).
  lra.
Qed.

End ParetoTable.

(** ** What the insight line reports *)

Section InsightLine.

Import Aggregation Pareto.

Local Open Scope Q_scope.

Lemma inject_nat_lt (a b : nat) :
  (a < b)%nat -> inject_Z (Z.of_nat a) < inject_Z (Z.of_nat b).
Proof. intros H. rewrite <- Zlt_Qlt. lia. Qed.

Lemma inject_nat_le (a b : nat) :
  (a <= b)%nat -> inject_Z (Z.of_nat a) <= inject_Z (Z.of_nat b).
Proof. intros H. rewrite <- Zle_Qle. lia. Qed.

Lemma share_bounds (a b : nat) :
  (0 < b)%nat -> (a <= b)%nat ->
  0 <= inject_Z (Z.of_nat a) / inject_Z (Z.of_nat b) * 100 /\
  inject_Z (Z.of_nat a) / inject_Z (Z.of_nat b) * 100 <= 100 /\
  ((a < b)%nat ->
   inject_Z (Z.of_nat a) / inject_Z (Z.of_nat b) * 100 < 100).
Proof.
  intros Hb Hab.
  pose proof (inject_nat_lt 0 b Hb) as Hb'.
  pose proof (inject_nat_le 0 a (Nat.le_0_l a)) as Ha'.
  pose proof (inject_nat_le a b Hab) as Hab'.
  change (inject_Z (Z.of_nat 0)) with 0 in Hb', Ha'.
  set (x := inject_Z (Z.of_nat a)) in *.
  set (y := inject_Z (Z.of_nat b)) in *.
  assert (H0 : 0 <= x / y) by (apply Qle_shift_div_l; lra).
  assert (H1 : x / y <= 1) by (apply Qle_shift_div_r; lra).
  split; [lra|]. split; [lra|].
  intros Hlt. pose proof (inject_nat_lt a b Hlt) as Hlt'. fold x y in Hlt'.
  assert (H2 : x / y < 1) by (apply Qlt_shift_div_r; lra).
  lra.
Qed.

Lemma insight_share_value (rows : list ParetoRow) :
  rows <> [] ->
  insight_share rows
  = Some (inject_Z (Z.of_nat (List.length (products_80 rows)))
          / inject_Z (Z.of_nat (List.length rows)) * 100).
Proof.
  unfold insight_share. destruct rows; [now intros H; elim H|reflexivity].
Qed.

Lemma pareto_products_nil (df : DataFrame) :
  pareto_products df = [] <-> forall r, In r df -> PRODUCT_NAME r = None.
Proof.
  rewrite <- groupby_sum_nil. unfold pareto_products. split.
  - intros E. apply (f_equal (@List.length _)) in E.
    rewrite length_pareto_of in E.
    rewrite <- (Permutation_length (sort_values_desc_perm _)) in E.
    now apply length_zero_iff_nil in E.
  - intros ->. reflexivity.
Qed.

(** X15.  The share that the insight line prints is not defined (a
    ZeroDivisionError) exactly when no sale has a product name, which
    includes the empty table; when it is defined it lies between 0
    and 100. *)
Theorem insight_share_defined_iff (df : DataFrame) :
  (insight_share (pareto_products df) = None <->
   forall r, In r df -> PRODUCT_NAME r = None) /\
  (forall q, insight_share (pareto_products df) = Some q ->
             0 <= q /\ q <= 100).
Proof.
  rewrite <- pareto_products_nil.
  destruct (pareto_products df) as [|r rows] eqn:E.
  - split; [split; reflexivity | intros q H; discriminate H].
  - split; [split; intros H; discriminate H|].
    intros q H. rewrite insight_share_value in H by discriminate.
    injection H as <-.
    pose proof (share_bounds (List.length (products_80 (r :: rows)))
                  (List.length (r :: rows))) as B.
    destruct B as [B0 [B1 _]]; [simpl; lia | apply filter_length_le |].
    split; assumption.
Qed.

Lemma last_row_at_100 (l : list AggRow) :
  l <> [] -> Forall (fun x => 0 < x) (map snd l) ->
  exists init r q,
    pareto_of l = init ++ [r] /\
    CUMULATIVE_PERCENTAGE r = Num q /\ q == 100.
Proof.
  intros Hne Hpos.
  assert (Hamt : map snd l <> []).
  { intros E. apply map_eq_nil in E. contradiction. }
  assert (Htot : 0 < sum (map snd l)) by now apply sum_pos.
  assert (Hrows : pareto_of l <> []).
  { intros E. apply (f_equal (@List.length _)) in E.
    rewrite length_pareto_of in E. now apply length_zero_iff_nil in E. }
  destruct (exists_last Hrows) as [init [r E]].
  destruct (last_percentage (percentage (sum (map snd l))) 0 (map snd l)
              Hamt) as [c [Hl Hc]].
  fold (cumsum (map snd l)) in Hl.
  rewrite <- pareto_of_percentage, E, map_app in Hl.
  cbn [map] in Hl. rewrite last_last in Hl.
  exists init, r, (c / sum (map snd l) * 100).
  split; [exact E|]. split.
  - rewrite Hl. now apply percentage_pos.
  - rewrite Hc. field. lra.
Qed.

(** X16.  With at least one product and positive product totals, the
    filter at 80 never keeps the last rank, so the insight line counts
    fewer products than there are and prints a share below 100. *)
Theorem products_80_leaves_last_rank (df : DataFrame) :
  (exists r, In r df /\ PRODUCT_NAME r <> None) ->
  (forall key amount, In (key, amount) (product_totals df) -> 0 < amount) ->
  (List.length (products_80 (pareto_products df))
     < List.length (pareto_products df))%nat /\
  exists q, insight_share (pareto_products df) = Some q /\ q < 100.
Proof.
  intros Hrow Hpos.
  assert (Hne : sort_values_desc (product_totals df) <> []).
  { intros E. apply (product_totals_nonempty df Hrow).
    pose proof (sort_values_desc_perm (product_totals df)) as Hp.
    rewrite E in Hp. now apply Permutation_sym, Permutation_nil in Hp. }
  destruct (last_row_at_100 _ Hne (ranked_amounts _ _ Hpos))
    as [init [r [q [E [Hr Hq]]]]].
  unfold pareto_products. fold (product_totals df). rewrite E.
  assert (Hlen : (List.length (products_80 (init ++ [r]))
                  < List.length (init ++ [r]))%nat).
  { unfold products_80. rewrite filter_app, !length_app. cbn [filter].
    rewrite Hr. cbn [fle]. rewrite Qle_bool_false by (rewrite Hq; lra).
    pose proof (filter_length_le _
                  (fun r0 => fle (CUMULATIVE_PERCENTAGE r0) 80) init).
    simpl. lia. }
  split; [exact Hlen|].
  rewrite insight_share_value by (destruct init; discriminate).
  eexists. split; [reflexivity|].
  apply share_bounds; lia.
Qed.

Lemma head_is_largest (l : list AggRow) (key : cell) (amount : Q) :
  In (key, amount) l ->
  exists k1 a1 rest,
    sort_values_desc l = (k1, a1) :: rest /\ amount <= a1.
Proof.
  intros Hin.
  apply (Permutation_in _ (sort_values_desc_perm l)) in Hin.
  pose proof (sort_values_desc_descending l) as Hs.
  destruct (sort_values_desc l) as [|[k1 a1] rest]; [destruct Hin|].
  exists k1, a1, rest. split; [reflexivity|].
  apply StronglySorted_inv in Hs. destruct Hs as [_ Hall].
  destruct Hin as [E|Hin].
  - injection E as _ <-. lra.
  - rewrite Forall_forall in Hall. apply (Hall _ Hin).
Qed.

(** X17.  On a table whose amounts float64 adds exactly, when one
    product alone has 81% of the revenue or more (no product total being
    negative), the filter at 80 keeps no row: the insight line reports 0
    products.  The margin of one point is far above what the rounding of
    the quotient and of the product by 100 can move. *)
Theorem dominant_product_counts_zero (df : DataFrame)
    (key : cell) (amount : Q) :
  whole_amounts df ->
  (forall k a, In (k, a) (product_totals df) -> 0 <= a) ->
  In (key, amount) (product_totals df) ->
  81 * sum (map snd (product_totals df)) <= 100 * amount ->
  products_80 (pareto_products df) = [].
Proof.
  intros _ Hpos Hin Hdom.
  unfold pareto_products. fold (product_totals df).
  pose proof (ranked_amounts _ _ Hpos) as Hall.
  rewrite (pareto_of_prefix _ Hall).
  destruct (head_is_largest _ _ _ Hin) as [k1 [a1 [rest [E Hle]]]].
  pose proof (sum_perm _ _ (Permutation_map snd
                (sort_values_desc_perm (product_totals df)))) as Hsum.
  pose proof (sum_nonneg _ Hall) as Htot.
  pose proof (pareto_of_percentage (sort_values_desc (product_totals df)))
    as Hpct.
  set (total := sum (map snd (sort_values_desc (product_totals df)))) in *.
  rewrite E in Hpct. unfold cumsum in Hpct.
  cbn [map snd cumsum_from] in Hpct.
  rewrite E.
  destruct (pareto_of ((k1, a1) :: rest)) as [|r rows];
    [reflexivity|].
  cbn [leading_80]. injection Hpct as Hr _. rewrite Hr.
  assert (Hfalse : fle (percentage total (0 + a1)) 80 = false).
  { destruct (Qlt_le_dec 0 total) as [Ht|Ht].
    - rewrite percentage_pos by assumption. cbn [fle].
      apply Qle_bool_false.
      assert (H : 80 < (100 * a1) / total)
        by (apply Qlt_shift_div_l; lra).
      assert (Eq : (0 + a1) / total * 100 == (100 * a1) / total)
        by (field; lra).
      rewrite Eq. exact H.
    - unfold percentage, fdiv.
      assert (Hz : total == 0) by lra.
      apply Qeq_bool_iff in Hz. rewrite Hz.
      destruct (Qeq_bool (0 + a1) 0) eqn:Ea; [reflexivity|].
      rewrite Qle_bool_true; [reflexivity|].
      assert (Ha1 : 0 <= a1); [|lra].
      apply (Hpos k1). apply (Permutation_in _
        (Permutation_sym (sort_values_desc_perm (product_totals df)))).
      rewrite E. now left. }
  now rewrite Hfalse.
Qed.

End InsightLine.

(** ** The average ticket *)

Section AverageTicket.

Local Open Scope Q_scope.

Lemma count_positive (df : DataFrame) :
  df <> [] -> 0 < inject_Z (Z.of_nat (List.length df)).
Proof.
  intros Hne. change 0 with (inject_Z 0). rewrite <- Zlt_Qlt.
  destruct df; [now elim Hne | simpl; lia].
Qed.

Lemma avg_ticket_value (df : DataFrame) :
  df <> [] ->
  KPI.avg_ticket df
  = Num (KPI.total_revenue df / inject_Z (Z.of_nat (List.length df))).
Proof.
  intros Hne. pose proof (count_positive df Hne) as Hn.
  unfold KPI.avg_ticket, KPI.total_revenue, fdiv.
  destruct (Qeq_bool (inject_Z (Z.of_nat (List.length df))) 0) eqn:E;
    [|reflexivity].
  apply Qeq_bool_iff in E. lra.
Qed.

(** X18.  On a table whose amounts float64 adds exactly, the average
    ticket is NaN on the empty table and on no other: on any other table
    it is a number. *)
Theorem avg_ticket_cases (df : DataFrame) :
  Aggregation.whole_amounts df ->
  (KPI.avg_ticket df = NaN <-> df = []) /\
  (df <> [] -> exists q, KPI.avg_ticket df = Num q).
Proof.
  intros _. destruct df as [|r t].
  - split; [split; reflexivity | intros H; now elim H].
  - rewrite avg_ticket_value by discriminate.
    split; [split; discriminate | intros _; eexists; reflexivity].
Qed.

Lemma below_or_all_above (q : Q) (df : DataFrame) :
  (exists r, In r df /\ TOTAL_VENDA r <= q) \/
  (forall r, In r df -> q < TOTAL_VENDA r).
Proof.
  induction df as [|x t [[r [Hr Hle]]|IH]].
  - right. intros r [].
  - left. exists r. split; [now right | exact Hle].
  - destruct (Qlt_le_dec q (TOTAL_VENDA x)) as [H|H].
    + right. intros r [<-|Hr]; [exact H | now apply IH].
    + left. exists x. split; [now left | exact H].
Qed.

Lemma above_or_all_below (q : Q) (df : DataFrame) :
  (exists r, In r df /\ q <= TOTAL_VENDA r) \/
  (forall r, In r df -> TOTAL_VENDA r < q).
Proof.
  induction df as [|x t [[r [Hr Hle]]|IH]].
  - right. intros r [].
  - left. exists r. split; [now right | exact Hle].
  - destruct (Qlt_le_dec (TOTAL_VENDA x) q) as [H|H].
    + right. intros r [<-|Hr]; [exact H | now apply IH].
    + left. exists x. split; [now left | exact H].
Qed.

Lemma revenue_above (q : Q) (df : DataFrame) :
  df <> [] -> (forall r, In r df -> q < TOTAL_VENDA r) ->
  q * inject_Z (Z.of_nat (List.length df)) < KPI.total_revenue df.
Proof.
  unfold KPI.total_revenue.
  induction df as [|x t IH]; intros Hne H; [now elim Hne|].
  assert (Hx := H x (or_introl eq_refl)).
  cbn [map Aggregation.sum List.length].
  rewrite Nat2Z.inj_succ. unfold Z.succ. rewrite inject_Z_plus.
  change (inject_Z 1) with 1.
  destruct t as [|y t].
  - cbn [map Aggregation.sum List.length Z.of_nat].
    change (inject_Z 0) with 0. lra.
  - assert (Ht := IH ltac:(discriminate) (fun r Hr => H r (or_intror Hr))).
    lra.
Qed.

Lemma revenue_below (q : Q) (df : DataFrame) :
  df <> [] -> (forall r, In r df -> TOTAL_VENDA r < q) ->
  KPI.total_revenue df < q * inject_Z (Z.of_nat (List.length df)).
Proof.
  unfold KPI.total_revenue.
  induction df as [|x t IH]; intros Hne H; [now elim Hne|].
  assert (Hx := H x (or_introl eq_refl)).
  cbn [map Aggregation.sum List.length].
  rewrite Nat2Z.inj_succ. unfold Z.succ. rewrite inject_Z_plus.
  change (inject_Z 1) with 1.
  destruct t as [|y t].
  - cbn [map Aggregation.sum List.length Z.of_nat].
    change (inject_Z 0) with 0. lra.
  - assert (Ht := IH ltac:(discriminate) (fun r Hr => H r (or_intror Hr))).
    lra.
Qed.

(** X19.  On a table whose amounts float64 adds exactly, when the
    average ticket is a number, some sale is at most the average and
    some sale is at least the average: the rounding of the quotient
    cannot carry it past an amount, which is a float64 itself. *)
Theorem avg_ticket_between_sales (df : DataFrame) (q : Q) :
  Aggregation.whole_amounts df ->
  KPI.avg_ticket df = Num q ->
  (exists r, In r df /\ TOTAL_VENDA r <= q) /\
  (exists r, In r df /\ q <= TOTAL_VENDA r).
Proof.
  intros _ H.
  assert (Hne : df <> []) by (intros ->; discriminate H).
  rewrite avg_ticket_value in H by assumption. injection H as <-.
  pose proof (count_positive df Hne) as Hn.
  set (n := inject_Z (Z.of_nat (List.length df))) in *.
  set (q := KPI.total_revenue df / n).
  assert (E : q * n == KPI.total_revenue df)
    by (unfold q; field; lra).
  split.
  - destruct (below_or_all_above q df) as [Hex|Hall]; [exact Hex|].
    pose proof (revenue_above q df Hne Hall) as Hlt. fold n in Hlt. lra.
  - destruct (above_or_all_below q df) as [Hex|Hall]; [exact Hex|].
    pose proof (revenue_below q df Hne Hall) as Hlt. fold n in Hlt. lra.
Qed.

End AverageTicket.

(** ** Month names *)

Section MonthNames.

Import Seasonality.

(** X20.  The month names of the tooltip and the labels of the x axis
    agree on the months 1 to 12.  For any other value the tooltip has no
    name, while the axis label falls through to Dec. *)
Theorem month_names_agree (month : Z) :
  ((1 <= month <= 12)%Z -> MONTH_NAME month = Some (labelExpr month)) /\
  (~ (1 <= month <= 12)%Z ->
   MONTH_NAME month = None /\ labelExpr month = "Dec"%string).
Proof.
  destruct month as [|p|p].
  - split; [lia | intros _; split; reflexivity].
  - do 4 (try destruct p as [p|p|]);
      (split; [intros H; try reflexivity; exfalso; lia
              | intros H; try (split; reflexivity); exfalso; lia]).
  - split; [lia | intros _; split; reflexivity].
Qed.

End MonthNames.

(** ** The further theorems on the sample tables *)

Section OnMoreSamples.

Import Aggregation Pareto FilterEngine Sidebar.

Local Open Scope Q_scope.

Lemma sample_nonnegative (r : Row) :
  In r Samples.three_products ->
  0 <= TOTAL_VENDA r /\ (0 <= QUANTIDADE_VENDIDA r)%Z.
Proof.
  intros Hin. simpl in Hin.
  repeat (destruct Hin as [<- | Hin];
          [split; vm_compute; discriminate|]).
  destruct Hin.
Defined.

(** The KPIs of the sales of Natal against those of the whole table. *)
Lemma kpis_shrink_under_filter_sample :
  (KPI.total_transactions
     (df_filtered Samples.three_products
        (mkSelection [Some "Natal"%string] [] [] [] []))
   <= KPI.total_transactions Samples.three_products)%nat /\
  KPI.total_revenue
    (df_filtered Samples.three_products
       (mkSelection [Some "Natal"%string] [] [] [] []))
  <= KPI.total_revenue Samples.three_products /\
  (KPI.total_quantity
     (df_filtered Samples.three_products
        (mkSelection [Some "Natal"%string] [] [] [] []))
   <= KPI.total_quantity Samples.three_products)%Z.
Proof.
  apply (kpis_shrink_under_filter Samples.three_products
           (mkSelection [Some "Natal"%string] [] [] [] [])).
  - exact sample_whole_amounts.
  - exact sample_nonnegative.
  - reflexivity.
Defined.

(** A date input with the first endpoint only. *)
Lemma partial_date_range_is_ignored_sample :
  df_filtered Samples.three_products (mkSelection [] [] [] [] [3%Z])
  = df_filtered Samples.three_products (mkSelection [] [] [] [] []).
Proof.
  apply (partial_date_range_is_ignored Samples.three_products
           [] [] [] [] [3%Z]).
  discriminate.
Defined.

(** The category options of the sample table. *)
Lemma options_are_sorted_values_sample :
  options CATEGORY Samples.three_products
    = Some [Some "A"%string; Some "B"%string] /\
  NoDup [Some "A"%string; Some "B"%string] /\
  (forall v, In v [Some "A"%string; Some "B"%string] <->
             exists r, In r Samples.three_products /\ CATEGORY r = v) /\
  ascending (dropna [Some "A"%string; Some "B"%string]).
Proof.
  split; [reflexivity|].
  apply (options_are_sorted_values CATEGORY Samples.three_products).
  reflexivity.
Defined.

(** Every option of the sample table ticked, no date given. *)
Lemma all_options_selected_sample :
  df_filtered Samples.three_products
    (mkSelection [Some "Natal"; Some "Recife"]
                 [Some "P1"; Some "P2"; Some "P3"]
                 [Some "A"; Some "B"]
                 [Some "Ana"; Some "Rui"] [])%string
  = df_filtered Samples.three_products (mkSelection [] [] [] [] []).
Proof.
  apply (all_options_selected Samples.three_products); reflexivity.
Defined.

(** Product K, the smallest of eleven, against the product ranking. *)
Lemma ranking_dominates_sample :
  In (Some "K"%string, 10) (product_totals MoreSamples.eleven_products) /\
  (In (Some "K"%string, 10) (product_sales MoreSamples.eleven_products) \/
   forall shown, In shown (product_sales MoreSamples.eleven_products) ->
                 snd (Some "K"%string, 10) <= snd shown).
Proof.
  assert (H : In (Some "K"%string, 10)
                 (product_totals MoreSamples.eleven_products)).
  { vm_compute. do 10 right. left. reflexivity. }
  split; [exact H|].
  apply (ranking_dominates product_sales product_totals
           MoreSamples.eleven_products (Some "K"%string, 10));
    [left; reflexivity | exact H].
Defined.

(** The store ranking of the sample table. *)
Lemma ranking_rows_sample :
  incl (top_stores Samples.three_products)
       (groupby_sum STORE_CITY Samples.three_products) /\
  NoDup (map fst (top_stores Samples.three_products)) /\
  ((List.length (groupby_sum STORE_CITY Samples.three_products) <= 10)%nat ->
   Permutation (top_stores Samples.three_products)
               (groupby_sum STORE_CITY Samples.three_products)).
Proof.
  apply (ranking_rows top_stores (groupby_sum STORE_CITY)
           Samples.three_products).
  right. right. left. reflexivity.
Defined.

(** The insight line of the sample table. *)
Lemma products_80_leaves_last_rank_sample :
  (List.length (products_80 (pareto_products Samples.three_products))
     < List.length (pareto_products Samples.three_products))%nat /\
  exists q,
    insight_share (pareto_products Samples.three_products) = Some q /\
    q < 100.
Proof.
  apply (products_80_leaves_last_rank Samples.three_products).
  - exists (Samples.sale 3 300 (Some "Recife"%string) (Some "P2"%string)
              (Some "B"%string) (Some "Ana"%string)).
    split; [left; reflexivity | discriminate].
  - exact sample_totals_positive.
Defined.

(** A product with 900 of 1000. *)
Lemma dominant_product_counts_zero_sample :
  In (Some "P1"%string, 900) (product_totals MoreSamples.dominant) /\
  81 * sum (map snd (product_totals MoreSamples.dominant)) <= 100 * 900 /\
  products_80 (pareto_products MoreSamples.dominant) = [].
Proof.
  assert (H : In (Some "P1"%string, 900)
                 (product_totals MoreSamples.dominant)).
  { vm_compute. left. reflexivity. }
  assert (Hd : 81 * sum (map snd (product_totals MoreSamples.dominant))
               <= 100 * 900) by (vm_compute; discriminate).
  assert (Hw : whole_amounts MoreSamples.dominant).
  { split; [|reflexivity]. intros r Hin. simpl in Hin.
    repeat (destruct Hin as [<- | Hin]; [eexists; reflexivity|]).
    destruct Hin. }
  split; [exact H|]. split; [exact Hd|].
  apply (dominant_product_counts_zero MoreSamples.dominant
           (Some "P1"%string) 900); [exact Hw| |exact H|exact Hd].
  intros k a Hin. vm_compute in Hin.
  repeat (destruct Hin as [E | Hin];
          [injection E as _ <-; vm_compute; discriminate|]).
  destruct Hin.
Defined.

(** The average ticket of the sample table, 1000 over 4 sales. *)
Lemma avg_ticket_between_sales_sample :
  KPI.avg_ticket Samples.three_products = Num (1000 # 4) /\
  (exists r, In r Samples.three_products /\ TOTAL_VENDA r <= 1000 # 4) /\
  (exists r, In r Samples.three_products /\ 1000 # 4 <= TOTAL_VENDA r).
Proof.
  split; [reflexivity|].
  apply (avg_ticket_between_sales Samples.three_products (1000 # 4)).
  - exact sample_whole_amounts.
  - reflexivity.
Defined.

(** The Pareto table of the sample ends at its revenue of 1000. *)
Lemma cumulative_sales_end_at_revenue_sample :
  last (map CUMULATIVE_SALES (pareto_products Samples.three_products)) 0
  == KPI.total_revenue (notnull PRODUCT_NAME Samples.three_products).
Proof.
  apply (cumulative_sales_end_at_revenue Samples.three_products).
  exact sample_whole_amounts.
Defined.

(** The average ticket of the sample table is a number. *)
Lemma avg_ticket_cases_sample :
  (KPI.avg_ticket Samples.three_products = NaN
   <-> Samples.three_products = []) /\
  (Samples.three_products <> [] ->
   exists q, KPI.avg_ticket Samples.three_products = Num q).
Proof.
  apply (avg_ticket_cases Samples.three_products).
  exact sample_whole_amounts.
Defined.

End OnMoreSamples.

(** ** Tables whose sums float64 forms exactly *)

Section ExactSums.

Import Aggregation Pareto FilterEngine.

Local Open Scope Q_scope.

Lemma sum_abs_nonneg (df : DataFrame) :
  0 <= sum (map (fun r => Qabs (TOTAL_VENDA r)) df).
Proof.
  induction df as [|x t IH]; simpl; [lra|].
  pose proof (Qabs_nonneg (TOTAL_VENDA x)). lra.
Qed.

Lemma sum_abs_filter (f : Row -> bool) (df : DataFrame) :
  sum (map (fun r => Qabs (TOTAL_VENDA r)) (filter f df))
  <= sum (map (fun r => Qabs (TOTAL_VENDA r)) df).
Proof.
  induction df as [|x t IH]; simpl; [lra|].
  pose proof (Qabs_nonneg (TOTAL_VENDA x)).
  destruct (f x); simpl; lra.
Qed.

Lemma abs_sum_le (df : DataFrame) :
  Qabs (sum (map TOTAL_VENDA df))
  <= sum (map (fun r => Qabs (TOTAL_VENDA r)) df).
Proof.
  induction df as [|x t IH]; simpl; [vm_compute; discriminate|].
  eapply Qle_trans; [apply Qabs_triangle|]. lra.
Qed.

Lemma whole_sum (df : DataFrame) :
  (forall r, In r df -> exists n : Z, TOTAL_VENDA r == inject_Z n) ->
  exists n : Z, sum (map TOTAL_VENDA df) == inject_Z n.
Proof.
  induction df as [|x t IH]; intros H; simpl.
  - exists 0%Z. reflexivity.
  - destruct (H x (or_introl eq_refl)) as [a Ha].
    destruct (IH (fun r Hr => H r (or_intror Hr))) as [b Hb].
    exists (a + b)%Z. rewrite Ha, Hb, inject_Z_plus. reflexivity.
Qed.

Lemma whole_bounded (q : Q) (n : Z) :
  q == inject_Z n -> Qabs q < inject_Z (2 ^ 53) -> float64_whole q.
Proof.
  intros E Hlt. exists n. split; [exact E|].
  rewrite E in Hlt. rewrite Zlt_Qlt. exact Hlt.
Qed.

Lemma whole_amounts_filter (f : Row -> bool) (df : DataFrame) :
  whole_amounts df -> whole_amounts (filter f df).
Proof.
  intros [Hint Hsum]. split.
  - intros r Hr. apply filter_In in Hr. now apply Hint.
  - eapply Qle_lt_trans; [apply sum_abs_filter | exact Hsum].
Qed.

Lemma whole_amounts_revenue (df : DataFrame) :
  whole_amounts df -> float64_whole (KPI.total_revenue df).
Proof.
  intros [Hint Hsum]. unfold KPI.total_revenue.
  destruct (whole_sum df Hint) as [n Hn].
  apply (whole_bounded _ n Hn).
  eapply Qle_lt_trans; [apply abs_sum_le | exact Hsum].
Qed.

Lemma whole_cumsum (l : list Q) :
  Forall (fun x => 0 <= x /\ exists n : Z, x == inject_Z n) l ->
  forall (acc : Q) (a : Z),
    acc == inject_Z a -> (0 <= a)%Z ->
    acc + sum l < inject_Z (2 ^ 53) ->
    Forall float64_whole (cumsum_from acc l).
Proof.
  induction 1 as [|x t [Hx [n Hn]] Ht IH]; intros acc a Ha Ha0 Hlt;
    cbn [cumsum_from]; [constructor|].
  assert (Hs : 0 <= sum t).
  { apply sum_nonneg. eapply Forall_impl; [|exact Ht]. now intros y [Hy _]. }
  assert (Hn0 : (0 <= n)%Z) by (rewrite Zle_Qle, <- Hn; exact Hx).
  assert (E : acc + x == inject_Z (a + n))
    by (rewrite Ha, Hn, inject_Z_plus; reflexivity).
  cbn [sum] in Hlt. constructor.
  - exists (a + n)%Z. split; [exact E|].
    rewrite Z.abs_eq by lia. rewrite Zlt_Qlt, <- E. lra.
  - apply (IH (acc + x) (a + n)%Z E); [lia | lra].
Qed.

(** X21.  On a table whose amounts are whole numbers with magnitudes
    adding up to less than 2^53, the sums that the script forms are
    values of float64: the total revenue, every total of every groupby
    and, when no product total is negative, every cumulative sales
    figure of the Pareto table are whole numbers of magnitude below
    2^53; and every filtered table is again such a table. *)
Theorem whole_amounts_sums (df : DataFrame) :
  whole_amounts df ->
  (forall s, whole_amounts (df_filtered df s)) /\
  float64_whole (KPI.total_revenue df) /\
  (forall col key amount,
     In (key, amount) (groupby_sum col df) -> float64_whole amount) /\
  ((forall key amount, In (key, amount) (product_totals df) -> 0 <= amount) ->
   Forall float64_whole (map CUMULATIVE_SALES (pareto_products df))).
Proof.
  intros Hw.
  assert (Hgroups : forall col key amount,
            In (key, amount) (groupby_sum col df) -> float64_whole amount).
  { intros col key amount Hin. unfold groupby_sum in Hin.
    apply in_map_iff in Hin. destruct Hin as [k [E _]].
    injection E as _ <-. unfold group.
    apply (whole_amounts_revenue _ (whole_amounts_filter _ df Hw)). }
  split; [|split; [|split]].
  - intros s. rewrite df_filtered_filter. now apply whole_amounts_filter.
  - now apply whole_amounts_revenue.
  - exact Hgroups.
  - intros Hpos. unfold pareto_products. fold (product_totals df).
    destruct (pareto_of_columns (sort_values_desc (product_totals df)))
      as [_ [-> _]].
    unfold cumsum. apply (whole_cumsum _) with (a := 0%Z);
      [|reflexivity|lia|].
    + apply ranked_amounts. intros key amount Hin.
      split; [now apply (Hpos key)|].
      destruct (Hgroups PRODUCT_NAME key amount Hin) as [n [Hn _]].
      now exists n.
    + rewrite <- (sum_perm _ _ (Permutation_map snd
                    (sort_values_desc_perm (product_totals df)))).
      unfold product_totals. rewrite groupby_sum_total.
      destruct (whole_amounts_filter
                  (fun r => match PRODUCT_NAME r with
                            | Some _ => true | None => false end) df Hw)
        as [_ Hsum].
      fold (notnull PRODUCT_NAME df) in Hsum.
      pose proof (abs_sum_le (notnull PRODUCT_NAME df)) as Habs.
      pose proof (Qle_Qabs (sum (map TOTAL_VENDA (notnull PRODUCT_NAME df))))
        as Hle.
      lra.
Qed.

End ExactSums.

Section OnExactSamples.

Import Aggregation Pareto FilterEngine.

Local Open Scope Q_scope.

(** The sums of the sample table are values of float64. *)
Lemma whole_amounts_sums_sample :
  (forall s, whole_amounts (df_filtered Samples.three_products s)) /\
  float64_whole (KPI.total_revenue Samples.three_products) /\
  (forall col key amount,
     In (key, amount) (groupby_sum col Samples.three_products) ->
     float64_whole amount) /\
  ((forall key amount,
      In (key, amount) (product_totals Samples.three_products) ->
      0 <= amount) ->
   Forall float64_whole
     (map CUMULATIVE_SALES (pareto_products Samples.three_products))).
Proof.
  apply (whole_amounts_sums Samples.three_products).
  exact sample_whole_amounts.
Defined.

End OnExactSamples.
